(** * Document-to-text extraction: the file handlers and their factory

    A shallow embedding of [backend_utils/file_handlers.py]: the four
    [FileHandler] subclasses ([PDFHandler], [DocxHandler], [TxtHandler],
    [CSVFileHandler]) and [FileHandlerFactory.get_file_handler].

    Python strings are sequences of code points, [bytes] objects are lists
    of [Byte.byte]; the uploaded file is a [BytesIO] buffer with a read
    position; exceptions and [print] are threaded through a small
    state-and-exception monad.  The two parser libraries (PyPDF2 and
    python-docx) are interfaces the handlers are parametrised by. *)

From Stdlib Require Import List NArith ZArith Lia Bool String Ascii.
From Stdlib Require Import Strings.Byte.
Import ListNotations.

Local Open Scope N_scope.

(* ================================================================= *)
(** ** Python strings and bytes *)

(** A code point, [0 .. 0x10FFFF]. *)
Definition codepoint := N.

(** A Python [str]: a sequence of code points. *)
Definition pystr := list codepoint.

(** A Python [bytes] object. *)
Definition bytes := list byte.

(** A string literal of the source, as a [str]. *)
Definition lit (s : string) : pystr :=
  map N_of_ascii (list_ascii_of_string s).

Definition pystr_eqb (a b : pystr) : bool :=
  if list_eq_dec N.eq_dec a b then true else false.

(** [sep.join(items)]. *)
Fixpoint str_join (sep : pystr) (items : list pystr) : pystr :=
  match items with
  | [] => []
  | x :: rest =>
      match rest with
      | [] => x
      | _ :: _ => x ++ sep ++ str_join sep rest
      end
  end.

(** The number of characters in all of [items]. *)
Fixpoint total_length (items : list pystr) : nat :=
  match items with
  | [] => 0
  | x :: rest => List.length x + total_length rest
  end.

(** Truthiness of an object that is [None] or a [str], as tested by
    [if page_text:]. *)
Definition truthy (o : option pystr) : bool :=
  match o with
  | None => false
  | Some [] => false
  | Some (_ :: _) => true
  end.

(* ================================================================= *)
(** ** The UTF-8 codec ([bytes.decode('utf-8')], strict error handler) *)

Definition byte_of_N (n : N) : byte :=
  match Byte.of_N n with
  | Some b => b
  | None => x00
  end.

(** A continuation byte, [10xxxxxx]. *)
Definition is_cont (n : N) : bool := (0x80 <=? n) && (n <=? 0xBF).

(** The range allowed for the second byte after lead byte [b0]: narrower
    than a plain continuation byte after [E0] and [F0] (no overlong forms),
    after [ED] (no surrogates) and after [F4] (nothing above U+10FFFF). *)
Definition second_lo (b0 : N) : N :=
  if b0 =? 0xE0 then 0xA0 else if b0 =? 0xF0 then 0x90 else 0x80.

Definition second_hi (b0 : N) : N :=
  if b0 =? 0xED then 0x9F else if b0 =? 0xF4 then 0x8F else 0xBF.

Definition is_second (b0 n : N) : bool :=
  (second_lo b0 <=? n) && (n <=? second_hi b0).

(** The decoder: [None] stands for [UnicodeDecodeError]. *)
Fixpoint utf8_decode (bs : bytes) : option pystr :=
  match bs with
  | [] => Some []
  | c0 :: r0 =>
      let b0 := Byte.to_N c0 in
      if b0 <? 0x80 then
        option_map (cons b0) (utf8_decode r0)
      else if b0 <? 0xC2 then None
      else if b0 <? 0xE0 then
        match r0 with
        | c1 :: r1 =>
            let b1 := Byte.to_N c1 in
            if is_cont b1 then
              option_map (cons ((b0 - 0xC0) * 64 + (b1 - 0x80)))
                         (utf8_decode r1)
            else None
        | _ => None
        end
      else if b0 <? 0xF0 then
        match r0 with
        | c1 :: c2 :: r2 =>
            let b1 := Byte.to_N c1 in
            let b2 := Byte.to_N c2 in
            if is_second b0 b1 && is_cont b2 then
              option_map
                (cons ((b0 - 0xE0) * 4096 + (b1 - 0x80) * 64 + (b2 - 0x80)))
                (utf8_decode r2)
            else None
        | _ => None
        end
      else if b0 <? 0xF5 then
        match r0 with
        | c1 :: c2 :: c3 :: r3 =>
            let b1 := Byte.to_N c1 in
            let b2 := Byte.to_N c2 in
            let b3 := Byte.to_N c3 in
            if is_second b0 b1 && is_cont b2 && is_cont b3 then
              option_map
                (cons ((b0 - 0xF0) * 262144 + (b1 - 0x80) * 4096
                       + (b2 - 0x80) * 64 + (b3 - 0x80)))
                (utf8_decode r3)
            else None
        | _ => None
        end
      else None
  end.

(** The encoder ([str.encode('utf-8')]): it gives the meaning of "these
    bytes are valid UTF-8".  Surrogates and values above U+10FFFF have no
    encoding. *)
Definition encode_codepoint (c : codepoint) : option bytes :=
  if c <? 0x80 then Some [byte_of_N c]
  else if c <? 0x800 then
    Some [byte_of_N (0xC0 + c / 64); byte_of_N (0x80 + c mod 64)]
  else if c <? 0x10000 then
    if (0xD800 <=? c) && (c <=? 0xDFFF) then None
    else Some [byte_of_N (0xE0 + c / 4096);
               byte_of_N (0x80 + (c / 64) mod 64);
               byte_of_N (0x80 + c mod 64)]
  else if c <? 0x110000 then
    Some [byte_of_N (0xF0 + c / 262144);
          byte_of_N (0x80 + (c / 4096) mod 64);
          byte_of_N (0x80 + (c / 64) mod 64);
          byte_of_N (0x80 + c mod 64)]
  else None.

Fixpoint utf8_encode (s : pystr) : option bytes :=
  match s with
  | [] => Some []
  | c :: rest =>
      match encode_codepoint c, utf8_encode rest with
      | Some b, Some bs => Some (b ++ bs)
      | _, _ => None
      end
  end.

(** The bytes are the UTF-8 encoding of some string. *)
Definition valid_utf8 (bs : bytes) : Prop :=
  exists s, utf8_encode s = Some bs.

(* ================================================================= *)
(** ** Exceptions, values and the uploaded file *)

(** The exceptions that can arise inside a handler.  All of them derive
    from [Exception].  [UnicodeDecodeError] is what [bytes.decode] raises;
    its attributes (codec, offending position, reason) are read by no
    handler and are left out.  [LibraryError cls msg] is any other
    exception class raised from inside a parser library. *)
Inductive exn : Type :=
| ValueError (msg : string)
| UnicodeDecodeError
| LibraryError (cls : string) (msg : string).

(** The class named by an [except] clause of the module. *)
Inductive except_clause : Type :=
| except_Exception
| except_UnicodeDecodeError.

(** Whether [except cl] handles [e]. *)
Definition caught_by (cl : except_clause) (e : exn) : bool :=
  match cl, e with
  | except_Exception, _ => true
  | except_UnicodeDecodeError, UnicodeDecodeError => true
  | except_UnicodeDecodeError, _ => false
  end.

(** What [read_file] hands back: a [str] or [None]. *)
Inductive pyval : Type :=
| PyStr (s : pystr)
| PyNone.

(** The result of evaluating an expression. *)
Inductive outcome (A : Type) : Type :=
| Return (a : A)
| Raise (e : exn).
Arguments Return {A} a.
Arguments Raise {A} e.

(** An [io.BytesIO]: the whole content, the read position, and whether the
    stream has been closed. *)
Record BytesIO : Type := mkBytesIO {
  buffer : bytes;
  pos : nat;
  closed : bool
}.

(** Streamlit's [UploadedFile], a [BytesIO] with the upload's metadata. *)
Record UploadedFile : Type := mkUploadedFile {
  name : pystr;
  mime_type : pystr;
  stream : BytesIO
}.

(** The bytes a [read()] would deliver. *)
Definition remaining (b : BytesIO) : bytes := skipn (pos b) (buffer b).

(** The stream once everything has been read: the position is at the end
    (or stays where it was, if it was already beyond). *)
Definition at_end (b : BytesIO) : BytesIO :=
  mkBytesIO (buffer b) (Nat.max (pos b) (List.length (buffer b))) (closed b).

(** [BytesIO.read()]: everything from the position to the end, and the
    position moves to the end; [ValueError] on a closed stream. *)
Definition BytesIO_read (b : BytesIO) : outcome bytes * BytesIO :=
  if closed b then
    (Raise (ValueError "I/O operation on closed file."), b)
  else
    (Return (remaining b), at_end b).

(** The file object with its stream replaced. *)
Definition with_stream (f : UploadedFile) (b : BytesIO) : UploadedFile :=
  mkUploadedFile (name f) (mime_type f) b.

(** A freshly uploaded item: open and positioned at the start. *)
Definition upload (name mime_type : pystr) (data : bytes) : UploadedFile :=
  mkUploadedFile name mime_type (mkBytesIO data 0 false).

(* ================================================================= *)
(** ** The state-and-exception monad *)

(** A line written by [print(f"<prefix>{e}")]: the literal part and the
    interpolated exception. *)
Definition printed : Type := string * exn.

(** What a call can change: the file object it was given and standard
    output. *)
Record Env : Type := mkEnv {
  file : UploadedFile;
  stdout : list printed
}.

Definition M (A : Type) : Type := Env -> outcome A * Env.

Definition ret {A : Type} (a : A) : M A := fun env => (Return a, env).

Definition raise {A : Type} (e : exn) : M A := fun env => (Raise e, env).

Definition bind {A B : Type} (m : M A) (k : A -> M B) : M B :=
  fun env =>
    match m env with
    | (Return a, env') => k a env'
    | (Raise e, env') => (Raise e, env')
    end.

Notation "x <- m ;; k" := (bind m (fun x => k))
  (at level 61, m at next level, right associativity).
Notation "m ;;; k" := (bind m (fun _ => k))
  (at level 61, right associativity).

(** [try: body except cl as e: handler e].  An exception the clause does
    not name goes on to the caller. *)
Definition try_except {A : Type} (body : M A) (cl : except_clause)
    (handler : exn -> M A) : M A :=
  fun env =>
    match body env with
    | (Return a, env') => (Return a, env')
    | (Raise e, env') =>
        if caught_by cl e then handler e env' else (Raise e, env')
    end.

(** An expression that has a value or raises and touches no state. *)
Definition lift {A : Type} (o : outcome A) : M A := fun env => (o, env).

(** A library call on the file's stream. *)
Definition on_stream {A : Type} (op : BytesIO -> outcome A * BytesIO) : M A :=
  fun env =>
    let f := file env in
    let (o, b') := op (stream f) in
    (o, mkEnv (with_stream f b') (stdout env)).

(** [file.read()]. *)
Definition file_read : M bytes := on_stream BytesIO_read.

(** [data.decode('utf-8')]. *)
Definition decode_utf8 (data : bytes) : M pystr :=
  match utf8_decode data with
  | Some s => ret s
  | None => raise UnicodeDecodeError
  end.

(** [print(f"<prefix>{e}")]. *)
Definition print (prefix : string) (e : exn) : M unit :=
  fun env => (Return tt, mkEnv (file env) (stdout env ++ [(prefix, e)])).

(* ================================================================= *)
(** ** The parser libraries *)

(** An iterable consumed by a [for] loop: fetching the next element may
    raise. *)
Inductive iterator (A : Type) : Type :=
| StopIteration
| Yield (x : A) (rest : iterator A)
| IterRaise (e : exn).
Arguments StopIteration {A}.
Arguments Yield {A} x rest.
Arguments IterRaise {A} e.

Fixpoint iter_of_list {A : Type} (l : list A) : iterator A :=
  match l with
  | [] => StopIteration
  | x :: rest => Yield x (iter_of_list rest)
  end.

(** What the module uses of PyPDF2: [PdfReader(file)], [reader.pages] and
    [page.extract_text()], which gives a [str] or nothing. *)
Record PdfLibrary : Type := mkPdfLibrary {
  pdf_reader : Type;
  page_object : Type;
  PdfReader : BytesIO -> outcome pdf_reader * BytesIO;
  pages : pdf_reader -> iterator page_object;
  extract_text : page_object -> outcome (option pystr)
}.

(** What the module uses of python-docx: [Document(file)],
    [doc.paragraphs] and [paragraph.text]. *)
Record DocxLibrary : Type := mkDocxLibrary {
  document : Type;
  paragraph : Type;
  Document : BytesIO -> outcome document * BytesIO;
  paragraphs : document -> outcome (list paragraph);
  paragraph_text : paragraph -> outcome pystr
}.

(* ================================================================= *)
(** ** The file handlers *)

(** The concrete subclasses of [FileHandler]. *)
Inductive FileHandler : Type :=
| PDFHandler
| DocxHandler
| TxtHandler
| CSVFileHandler.

(** The [str] of an object known to be truthy. *)
Definition str_of (o : option pystr) : pystr :=
  match o with
  | Some s => s
  | None => []
  end.

Section Handlers.

Variable pdf : PdfLibrary.
Variable docx : DocxLibrary.

(** The loop of [PDFHandler.read_file]:
    [for page in pdf_reader.pages: ...], with [text] so far. *)
Fixpoint for_page_in (it : iterator (page_object pdf)) (text : pystr)
    : M pystr :=
  match it with
  | StopIteration => ret text
  | IterRaise e => raise e
  | Yield page rest =>
      page_text <- lift (extract_text pdf page) ;;
      if truthy page_text
      then for_page_in rest (text ++ str_of page_text)
      else for_page_in rest text
  end.

(** The [try] block of [PDFHandler.read_file]. *)
Definition PDFHandler_try : M pyval :=
  reader <- on_stream (PdfReader pdf) ;;
  text <- for_page_in (pages pdf reader) [] ;;
  ret (PyStr text).

Definition PDFHandler_read_file : M pyval :=
  try_except PDFHandler_try except_Exception
    (fun e => print "Error reading file: " e ;;; ret (PyStr [])).

(** [[paragraph.text for paragraph in ps]]. *)
Fixpoint paragraph_texts (ps : list (paragraph docx)) : M (list pystr) :=
  match ps with
  | [] => ret []
  | p :: rest =>
      t <- lift (paragraph_text docx p) ;;
      ts <- paragraph_texts rest ;;
      ret (t :: ts)
  end.

(** The [try] block of [DocxHandler.read_file]. *)
Definition DocxHandler_try : M pyval :=
  doc <- on_stream (Document docx) ;;
  ps <- lift (paragraphs docx doc) ;;
  texts <- paragraph_texts ps ;;
  ret (PyStr (str_join (lit " ") texts)).

Definition DocxHandler_read_file : M pyval :=
  try_except DocxHandler_try except_Exception
    (fun e => print "Error reading Word file: " e ;;; ret (PyStr [])).

(** The [try] block of [TxtHandler.read_file]. *)
Definition TxtHandler_try : M pyval :=
  data <- file_read ;;
  text <- decode_utf8 data ;;
  ret (PyStr text).

Definition TxtHandler_read_file : M pyval :=
  try_except TxtHandler_try except_Exception
    (fun e => print "Error reading text file: " e ;;; ret (PyStr [])).

(** The [try] block of [CSVFileHandler.read_file]. *)
Definition CSVFileHandler_try : M pyval :=
  data <- file_read ;;
  csv_data <- decode_utf8 data ;;
  ret (PyStr csv_data).

Definition CSVFileHandler_read_file : M pyval :=
  try_except CSVFileHandler_try except_UnicodeDecodeError
    (fun _ => ret PyNone).

(** The [try] block of a handler's [read_file]. *)
Definition try_block (h : FileHandler) : M pyval :=
  match h with
  | PDFHandler => PDFHandler_try
  | DocxHandler => DocxHandler_try
  | TxtHandler => TxtHandler_try
  | CSVFileHandler => CSVFileHandler_try
  end.

(** [handler.read_file(file)], by the handler's class. *)
Definition read_file (h : FileHandler) : M pyval :=
  match h with
  | PDFHandler => PDFHandler_read_file
  | DocxHandler => DocxHandler_read_file
  | TxtHandler => TxtHandler_read_file
  | CSVFileHandler => CSVFileHandler_read_file
  end.

End Handlers.

(** [FileHandlerFactory.get_file_handler(file_type)]. *)
Definition get_file_handler (file_type : pystr) : M FileHandler :=
  if pystr_eqb file_type (lit "application/pdf") then
    ret PDFHandler
  else if pystr_eqb file_type
       (lit "application/vnd.openxmlformats-officedocument.wordprocessingml.document")
  then
    ret DocxHandler
  else if pystr_eqb file_type (lit "text/plain") then
    ret TxtHandler
  else if pystr_eqb file_type (lit "text/csv") then
    ret CSVFileHandler
  else
    raise (ValueError "Invalid file type").

(** The four content types the factory names. *)
Definition supported_types : list pystr :=
  [ lit "application/pdf";
    lit "application/vnd.openxmlformats-officedocument.wordprocessingml.document";
    lit "text/plain";
    lit "text/csv" ].

(** A call on a given file object, with what has been printed so far. *)
Definition run {A : Type} (m : M A) (f : UploadedFile) (out : list printed)
    : outcome A * Env :=
  m (mkEnv f out).

(** An iterable that delivers the items of [l] and then goes on as [it]. *)
Fixpoint iter_prepend {A : Type} (l : list A) (it : iterator A)
    : iterator A :=
  match l with
  | [] => it
  | x :: rest => Yield x (iter_prepend rest it)
  end.

(** The literal a handler's [except] clause prints before the exception;
    the [except] clause of [CSVFileHandler] prints nothing. *)
Definition error_prefix (h : FileHandler) : option string :=
  match h with
  | PDFHandler => Some "Error reading file: "%string
  | DocxHandler => Some "Error reading Word file: "%string
  | TxtHandler => Some "Error reading text file: "%string
  | CSVFileHandler => None
  end.

(** A Unicode scalar value: a code point up to U+10FFFF that is not a
    surrogate. *)
Definition is_scalar (c : codepoint) : bool :=
  (c <? 0xD800) || ((0xDFFF <? c) && (c <? 0x110000)).

(* ================================================================= *)
(** ** The question-answering tab ([streamlit_components.py]) *)

(** What one run of the page script gets back from Streamlit: the value
    of each widget for what the user did, and the result of reading
    [st.session_state.api_key_valid], which raises when the attribute was
    never set. *)
Record PageRun : Type := mkPageRun {
  uploaded_files : list UploadedFile;
  question : pystr;
  run_clicked : bool;
  chat_mode : pystr;
  api_key_valid : outcome bool
}.

(** The functions the tab calls that are defined elsewhere: the helper
    that draws the advanced parameters, [flow_coordinator.run] and
    [integrate_chain_into_chat]. *)
Record Collaborators (response : Type) : Type := mkCollaborators {
  advanced_parameters_section : outcome unit;
  flow_coordinator_run : list UploadedFile -> pystr -> outcome response;
  integrate_chain_into_chat : pystr -> response -> outcome unit
}.
Arguments advanced_parameters_section {response} _.
Arguments flow_coordinator_run {response} _ _ _.
Arguments integrate_chain_into_chat {response} _ _ _.

(** The calls of [tab1_qa_chain_files], as a trace. *)
Inductive call (response : Type) : Type :=
| st_file_uploader
| st_expander
| call_advanced_parameters_section
| st_text_input
| st_columns
| st_button
| st_selectbox
| read_api_key_valid
| call_run (files : list UploadedFile) (user_question : pystr)
| st_write (r : response)
| call_integrate (user_question : pystr) (r : response).
Arguments st_file_uploader {response}.
Arguments st_expander {response}.
Arguments call_advanced_parameters_section {response}.
Arguments st_text_input {response}.
Arguments st_columns {response}.
Arguments st_button {response}.
Arguments st_selectbox {response}.
Arguments read_api_key_valid {response}.
Arguments call_run {response} files user_question.
Arguments st_write {response} r.
Arguments call_integrate {response} user_question r.

Section Tab1.

Variable response : Type.
Variable deps : Collaborators response.
Variable page : PageRun.

(** A computation of the page script: it has a value or raises, and adds
    the calls it made to the trace. *)
Definition UI (A : Type) : Type :=
  list (call response) -> outcome A * list (call response).

Definition ui_ret {A : Type} (a : A) : UI A := fun tr => (Return a, tr).

Definition ui_bind {A B : Type} (m : UI A) (k : A -> UI B) : UI B :=
  fun tr =>
    match m tr with
    | (Return a, tr') => k a tr'
    | (Raise e, tr') => (Raise e, tr')
    end.

(** The call [c], with what it gives back. *)
Definition perform {A : Type} (c : call response) (o : outcome A) : UI A :=
  fun tr => (o, tr ++ [c]).

(** Truthiness of a [str] and of a list. *)
Definition nonempty {A : Type} (l : list A) : bool :=
  match l with
  | [] => false
  | _ :: _ => true
  end.

(** [user_question and files and run_button_clicked and
    st.session_state.api_key_valid], as a condition: [and] evaluates its
    right operand only when the left one is truthy. *)
Definition run_condition (user_question : pystr)
    (files : list UploadedFile) (run_button_clicked : bool) : UI bool :=
  if nonempty user_question then
    if nonempty files then
      if run_button_clicked then
        perform read_api_key_valid (api_key_valid page)
      else ui_ret false
    else ui_ret false
  else ui_ret false.

Notation "x <~ m ;; k" := (ui_bind m (fun x => k))
  (at level 61, m at next level, right associativity).

Definition tab1_qa_chain_files : UI unit :=
  files <~ perform st_file_uploader (Return (uploaded_files page)) ;;
  _ <~ perform st_expander (Return tt) ;;
  _ <~ perform call_advanced_parameters_section
         (advanced_parameters_section deps) ;;
  user_question <~ perform st_text_input (Return (question page)) ;;
  _ <~ perform st_columns (Return tt) ;;
  run_button_clicked <~ perform st_button (Return (run_clicked page)) ;;
  transfer_to_chat_bot <~ perform st_selectbox (Return (chat_mode page)) ;;
  go <~ run_condition user_question files run_button_clicked ;;
  if go then
    r <~ perform (call_run files user_question)
           (flow_coordinator_run deps files user_question) ;;
    _ <~ perform (st_write r) (Return tt) ;;
    if negb (pystr_eqb transfer_to_chat_bot (lit "Standalone")) then
      perform (call_integrate user_question r)
              (integrate_chain_into_chat deps user_question r)
    else ui_ret tt
  else ui_ret tt.

End Tab1.
Arguments tab1_qa_chain_files {response} deps page _.

(** The calls every run of the tab starts with, while the helper that
    draws the advanced parameters returns. *)
Definition widgets {response : Type} : list (call response) :=
  [st_file_uploader; st_expander; call_advanced_parameters_section;
   st_text_input; st_columns; st_button; st_selectbox].

(** Whether the three tests before the session state all pass. *)
Definition asked (p : PageRun) : bool :=
  nonempty (question p) && nonempty (uploaded_files p) && run_clicked p.

(* ================================================================= *)
(** ** Stand-in parser libraries *)

(** Small libraries over toy formats, to run the handlers on concrete
    files.  A toy PDF is [%] followed by the pages' UTF-8 texts separated
    by form feeds; a toy Word document is [PK] followed by the paragraphs'
    UTF-8 texts separated by line feeds. *)

Fixpoint split_on (sep : byte) (bs : bytes) : list bytes :=
  match bs with
  | [] => [[]]
  | b :: rest =>
      match split_on sep rest with
      | cur :: others =>
          if Byte.eqb b sep then [] :: cur :: others
          else (b :: cur) :: others
      | [] => [[b]]
      end
  end.

Definition toy_PdfReader (b : BytesIO) : outcome (list bytes) * BytesIO :=
  if closed b then (Raise (ValueError "I/O operation on closed file."), b)
  else
    match buffer b with
    | x25 :: rest => (Return (split_on x0c rest), b)
    | _ => (Raise (LibraryError "PdfReadError" "EOF marker not found"), b)
    end.

Definition toy_extract_text (page : bytes) : outcome (option pystr) :=
  match utf8_decode page with
  | Some [] => Return None
  | Some s => Return (Some s)
  | None => Raise (LibraryError "PdfReadError" "Invalid content stream")
  end.

Definition toy_pdf : PdfLibrary :=
  mkPdfLibrary (list bytes) bytes toy_PdfReader
    (@iter_of_list bytes) toy_extract_text.

Definition toy_Document (b : BytesIO) : outcome (list bytes) * BytesIO :=
  if closed b then (Raise (ValueError "I/O operation on closed file."), b)
  else
    match buffer b with
    | x50 :: x4b :: rest => (Return (split_on x0a rest), b)
    | _ => (Raise (LibraryError "BadZipFile" "File is not a zip file"), b)
    end.

Definition toy_paragraph_text (p : bytes) : outcome pystr :=
  match utf8_decode p with
  | Some s => Return s
  | None => Raise (LibraryError "XMLSyntaxError" "Invalid character")
  end.

Definition toy_docx : DocxLibrary :=
  mkDocxLibrary (list bytes) bytes toy_Document
    (fun d => Return d) toy_paragraph_text.

(** The bytes of an ASCII literal. *)
Definition ascii_bytes (s : string) : bytes := list_byte_of_string s.


(** Sample uploads in the toy formats. *)
Definition sample_pdf : UploadedFile :=
  upload (lit "lease.pdf") (lit "application/pdf")
    (ascii_bytes "%Hello" ++ [x0c; x0c] ++ ascii_bytes "world").

Definition sample_bad_pdf : UploadedFile :=
  upload (lit "lease.pdf") (lit "application/pdf") (ascii_bytes "not a pdf").

Definition sample_docx : UploadedFile :=
  upload (lit "lease.docx")
    (lit "application/vnd.openxmlformats-officedocument.wordprocessingml.document")
    (ascii_bytes "PKHello" ++ [x0a] ++ ascii_bytes "world").

Definition sample_docx_gap : UploadedFile :=
  upload (lit "lease.docx")
    (lit "application/vnd.openxmlformats-officedocument.wordprocessingml.document")
    (ascii_bytes "PKHello" ++ [x0a; x0a] ++ ascii_bytes "world").

(** ["€A"] in UTF-8, and a byte string that is not UTF-8. *)
Definition sample_text : UploadedFile :=
  upload (lit "notes.txt") (lit "text/plain") [xe2; x82; xac; x41].

Definition sample_bad_text : UploadedFile :=
  upload (lit "notes.txt") (lit "text/plain") [xff; x41].

(** More sample uploads: a closed stream, a toy PDF and a toy Word
    document with a broken middle part, files with nothing in them, and
    the content of [sample_text] twice over. *)
Definition sample_closed : UploadedFile :=
  mkUploadedFile (lit "data.csv") (lit "text/csv") (mkBytesIO [xff] 0 true).

Definition sample_pdf_bad_page : UploadedFile :=
  upload (lit "lease.pdf") (lit "application/pdf")
    (ascii_bytes "%Hello" ++ [x0c; xff; x0c] ++ ascii_bytes "world").

Definition sample_docx_bad_paragraph : UploadedFile :=
  upload (lit "lease.docx")
    (lit "application/vnd.openxmlformats-officedocument.wordprocessingml.document")
    (ascii_bytes "PKHello" ++ [x0a; xff; x0a] ++ ascii_bytes "world").

Definition sample_blank_pdf : UploadedFile :=
  upload (lit "blank.pdf") (lit "application/pdf") [x25; x0c].

Definition sample_blank_docx : UploadedFile :=
  upload (lit "blank.docx")
    (lit "application/vnd.openxmlformats-officedocument.wordprocessingml.document")
    [x50; x4b].

Definition sample_empty_text : UploadedFile :=
  upload (lit "empty.txt") (lit "text/plain") [].

(** The text [sample_text] holds. *)
Definition sample_text_decoded : pystr := [8364; 65].

Definition sample_text_twice : UploadedFile :=
  upload (lit "twice.txt") (lit "text/plain")
    [xe2; x82; xac; x41; xe2; x82; xac; x41].

(** Stand-ins for the tab's collaborators, answering with a fixed text,
    and two runs of the page: one where the user has uploaded a file,
    typed a question and clicked Run with a valid key, and one where
    nothing was asked and the key was never set. *)
Definition toy_deps : Collaborators pystr :=
  mkCollaborators pystr (Return tt)
    (fun _ _ => Return (lit "Twelve months."))
    (fun _ _ => Return tt).

Definition sample_page : PageRun :=
  mkPageRun [sample_text] (lit "How long is the lease?") true
    (lit "Integrated into the chatbot") (Return true).

Definition sample_idle_page : PageRun :=
  mkPageRun [] [] false (lit "Standalone")
    (Raise (LibraryError "AttributeError" "api_key_valid")).

(* ================================================================= *)
(** ** Codec lemmas *)

Lemma to_N_byte_of_N (n : N) : n <= 255 -> Byte.to_N (byte_of_N n) = n.
Proof.
  intros Hn. unfold byte_of_N.
  destruct (Byte.of_N n) as [b|] eqn:E.
  - now apply Byte.to_of_N.
  - apply Byte.of_N_None_iff in E. lia.
Qed.

Lemma byte_of_N_to_N (b : byte) : byte_of_N (Byte.to_N b) = b.
Proof. unfold byte_of_N. now rewrite Byte.of_to_N. Qed.

Ltac Zify.zify_post_hook ::= Z.to_euclidean_division_equations.

Lemma utf8_decode_cons (c0 : byte) (r0 : bytes) :
  utf8_decode (c0 :: r0) =
      let b0 := Byte.to_N c0 in
      if b0 <? 0x80 then
        option_map (cons b0) (utf8_decode r0)
      else if b0 <? 0xC2 then None
      else if b0 <? 0xE0 then
        match r0 with
        | c1 :: r1 =>
            let b1 := Byte.to_N c1 in
            if is_cont b1 then
              option_map (cons ((b0 - 0xC0) * 64 + (b1 - 0x80)))
                         (utf8_decode r1)
            else None
        | _ => None
        end
      else if b0 <? 0xF0 then
        match r0 with
        | c1 :: c2 :: r2 =>
            let b1 := Byte.to_N c1 in
            let b2 := Byte.to_N c2 in
            if is_second b0 b1 && is_cont b2 then
              option_map
                (cons ((b0 - 0xE0) * 4096 + (b1 - 0x80) * 64 + (b2 - 0x80)))
                (utf8_decode r2)
            else None
        | _ => None
        end
      else if b0 <? 0xF5 then
        match r0 with
        | c1 :: c2 :: c3 :: r3 =>
            let b1 := Byte.to_N c1 in
            let b2 := Byte.to_N c2 in
            let b3 := Byte.to_N c3 in
            if is_second b0 b1 && is_cont b2 && is_cont b3 then
              option_map
                (cons ((b0 - 0xF0) * 262144 + (b1 - 0x80) * 4096
                       + (b2 - 0x80) * 64 + (b3 - 0x80)))
                (utf8_decode r3)
            else None
        | _ => None
        end
      else None.
Proof. reflexivity. Qed.

Lemma Some_inj (A : Type) (x y : A) : Some x = Some y -> x = y.
Proof. now intros [= ->]. Qed.

Ltac settle_cmp :=
  repeat match goal with
  | |- context [?a =? ?b] =>
      first [ replace (a =? b) with true by (symmetry; apply N.eqb_eq; lia)
            | replace (a =? b) with false by (symmetry; apply N.eqb_neq; lia)
            | destruct (N.eqb_spec a b) ]
  | |- context [?a <? ?b] =>
      first [ replace (a <? b) with true by (symmetry; apply N.ltb_lt; lia)
            | replace (a <? b) with false by (symmetry; apply N.ltb_ge; lia)
            | destruct (N.ltb_spec a b) ]
  | |- context [?a <=? ?b] =>
      first [ replace (a <=? b) with true by (symmetry; apply N.leb_le; lia)
            | replace (a <=? b) with false by (symmetry; apply N.leb_gt; lia)
            | destruct (N.leb_spec a b) ]
  end.

Lemma digits2 (c : N) :
  c = (c / 64) * 64 + c mod 64 /\ c mod 64 < 64.
Proof. lia. Qed.

Lemma digits3 (c : N) :
  c = (c / 4096) * 4096 + ((c / 64) mod 64) * 64 + c mod 64
  /\ (c / 64) mod 64 < 64 /\ c mod 64 < 64.
Proof. lia. Qed.

Lemma digits4 (c : N) :
  c = (c / 262144) * 262144 + ((c / 4096) mod 64) * 4096
      + ((c / 64) mod 64) * 64 + c mod 64
  /\ (c / 4096) mod 64 < 64 /\ (c / 64) mod 64 < 64 /\ c mod 64 < 64.
Proof. lia. Qed.

Lemma undigits2 (a d : N) :
  d < 64 -> (a * 64 + d) / 64 = a /\ (a * 64 + d) mod 64 = d.
Proof. lia. Qed.

Lemma undigits3 (a b d : N) :
  b < 64 -> d < 64 ->
  let c := a * 4096 + b * 64 + d in
  c / 4096 = a /\ (c / 64) mod 64 = b /\ c mod 64 = d.
Proof. cbv zeta. lia. Qed.

Lemma undigits4 (a b1 b2 d : N) :
  b1 < 64 -> b2 < 64 -> d < 64 ->
  let c := a * 262144 + b1 * 4096 + b2 * 64 + d in
  c / 262144 = a /\ (c / 4096) mod 64 = b1 /\ (c / 64) mod 64 = b2
  /\ c mod 64 = d.
Proof. cbv zeta. lia. Qed.

Ltac Zify.zify_post_hook ::= idtac.

Ltac name_digits :=
  repeat match goal with
  | H : context [?x mod 64] |- _ =>
      let d := fresh "d" in set (d := x mod 64) in *; clearbody d
  | H : context [?x / ?k] |- _ =>
      let q := fresh "q" in set (q := x / k) in *; clearbody q
  end.

Ltac decode_step :=
  cbn [app]; rewrite utf8_decode_cons; cbv zeta;
  rewrite !to_N_byte_of_N by lia;
  unfold is_cont, is_second, second_lo, second_hi;
  settle_cmp; cbn [andb]; f_equal; f_equal; lia.

Lemma decode_encode_codepoint (c : codepoint) (b rest : bytes) :
  encode_codepoint c = Some b ->
  utf8_decode (b ++ rest) = option_map (cons c) (utf8_decode rest).
Proof.
  unfold encode_codepoint.
  destruct (N.ltb_spec c 0x80).
  { intros E; apply Some_inj in E; subst b. decode_step. }
  destruct (N.ltb_spec c 0x800).
  { intros E; apply Some_inj in E; subst b.
    destruct (digits2 c) as (Hc & Hd). name_digits. decode_step. }
  destruct (N.ltb_spec c 0x10000).
  { destruct (N.leb_spec 0xD800 c); destruct (N.leb_spec c 0xDFFF); cbn [andb];
      try discriminate.
    all: intros E; apply Some_inj in E; subst b;
      destruct (digits3 c) as (Hc & Hb & Hd); name_digits; decode_step. }
  destruct (N.ltb_spec c 0x110000); [|discriminate].
  intros E; apply Some_inj in E; subst b.
  destruct (digits4 c) as (Hc & Hb1 & Hb2 & Hd); name_digits; decode_step.
Qed.

Theorem utf8_decode_encode (s : pystr) (bs : bytes) :
  utf8_encode s = Some bs -> utf8_decode bs = Some s.
Proof.
  revert bs. induction s as [|c s IH]; intros bs; cbn [utf8_encode].
  - now intros E; apply Some_inj in E; subst bs.
  - destruct (encode_codepoint c) as [b|] eqn:Ec; [|discriminate].
    destruct (utf8_encode s) as [bs'|]; [|discriminate].
    intros E; apply Some_inj in E; subst bs.
    rewrite (decode_encode_codepoint c b bs' Ec), (IH bs' eq_refl). reflexivity.
Qed.

Lemma option_map_cons_Some (c : codepoint) (o : option pystr) (s : pystr) :
  option_map (cons c) o = Some s ->
  exists s', o = Some s' /\ s = c :: s'.
Proof.
  destruct o as [s'|]; cbn; [|discriminate].
  intros E; apply Some_inj in E. now exists s'.
Qed.

Lemma byte_of_N_offset (k : N) (c : byte) :
  k <= Byte.to_N c -> byte_of_N (k + (Byte.to_N c - k)) = c.
Proof.
  intros H. replace (k + (Byte.to_N c - k)) with (Byte.to_N c) by lia.
  apply byte_of_N_to_N.
Qed.

Ltac split_cmp_hyps :=
  repeat match goal with
  | H : _ && _ = true |- _ => apply andb_true_iff in H; destruct H
  | H : (_ <=? _) = true |- _ => apply N.leb_le in H
  end.

Lemma encode_decoded_2 (c0 c1 : byte) :
  0xC2 <= Byte.to_N c0 -> Byte.to_N c0 < 0xE0 ->
  is_cont (Byte.to_N c1) = true ->
  encode_codepoint ((Byte.to_N c0 - 0xC0) * 64 + (Byte.to_N c1 - 0x80))
  = Some [c0; c1].
Proof.
  intros H0 H0' H1. unfold is_cont in H1. split_cmp_hyps.
  destruct (@undigits2 (Byte.to_N c0 - 0xC0) (Byte.to_N c1 - 0x80)) as (Eq & Er);
    [lia|].
  unfold encode_codepoint. settle_cmp. rewrite Eq, Er.
  now rewrite !byte_of_N_offset by lia.
Qed.

Lemma is_cont_true (n : N) : is_cont n = true -> 0x80 <= n <= 0xBF.
Proof. unfold is_cont. intros H. split_cmp_hyps. lia. Qed.

Lemma is_second_true (b0 n : N) :
  is_second b0 n = true ->
  0x80 <= n <= 0xBF
  /\ (b0 = 0xE0 -> 0xA0 <= n) /\ (b0 = 0xF0 -> 0x90 <= n)
  /\ (b0 = 0xED -> n <= 0x9F) /\ (b0 = 0xF4 -> n <= 0x8F).
Proof.
  unfold is_second. intros H. split_cmp_hyps.
  revert H H0. unfold second_lo, second_hi. settle_cmp; intros; lia.
Qed.

Lemma encode_decoded_3 (c0 c1 c2 : byte) :
  0xE0 <= Byte.to_N c0 -> Byte.to_N c0 < 0xF0 ->
  is_second (Byte.to_N c0) (Byte.to_N c1) = true ->
  is_cont (Byte.to_N c2) = true ->
  encode_codepoint ((Byte.to_N c0 - 0xE0) * 4096
                    + (Byte.to_N c1 - 0x80) * 64 + (Byte.to_N c2 - 0x80))
  = Some [c0; c1; c2].
Proof.
  intros H0 H0' H1 H2.
  apply is_second_true in H1. destruct H1 as (H1 & HE0 & _ & HED & _).
  apply is_cont_true in H2.
  destruct (@undigits3 (Byte.to_N c0 - 0xE0) (Byte.to_N c1 - 0x80)
                       (Byte.to_N c2 - 0x80)) as (Ea & Eb & Ed); [lia|lia|].
  unfold encode_codepoint.
  destruct (N.eq_dec (Byte.to_N c0) 0xE0) as [E0|N0];
    [specialize (HE0 E0)|clear HE0];
    (destruct (N.eq_dec (Byte.to_N c0) 0xED) as [ED|ND];
      [specialize (HED ED)|clear HED]);
    settle_cmp; try lia; cbn [andb]; rewrite Ea, Eb, Ed;
    now rewrite !byte_of_N_offset by lia.
Qed.

Lemma encode_decoded_4 (c0 c1 c2 c3 : byte) :
  0xF0 <= Byte.to_N c0 -> Byte.to_N c0 < 0xF5 ->
  is_second (Byte.to_N c0) (Byte.to_N c1) = true ->
  is_cont (Byte.to_N c2) = true ->
  is_cont (Byte.to_N c3) = true ->
  encode_codepoint ((Byte.to_N c0 - 0xF0) * 262144
                    + (Byte.to_N c1 - 0x80) * 4096
                    + (Byte.to_N c2 - 0x80) * 64 + (Byte.to_N c3 - 0x80))
  = Some [c0; c1; c2; c3].
Proof.
  intros H0 H0' H1 H2 H3.
  apply is_second_true in H1. destruct H1 as (H1 & _ & HF0 & _ & HF4).
  apply is_cont_true in H2. apply is_cont_true in H3.
  destruct (@undigits4 (Byte.to_N c0 - 0xF0) (Byte.to_N c1 - 0x80)
                       (Byte.to_N c2 - 0x80) (Byte.to_N c3 - 0x80))
    as (Ea & Eb1 & Eb2 & Ed); [lia|lia|lia|].
  unfold encode_codepoint.
  destruct (N.eq_dec (Byte.to_N c0) 0xF0) as [E0|N0];
    [specialize (HF0 E0)|clear HF0];
    (destruct (N.eq_dec (Byte.to_N c0) 0xF4) as [E4|N4];
      [specialize (HF4 E4)|clear HF4]);
    settle_cmp; try lia; rewrite Ea, Eb1, Eb2, Ed;
    now rewrite !byte_of_N_offset by lia.
Qed.

Lemma encode_decoded_1 (c0 : byte) :
  Byte.to_N c0 < 0x80 -> encode_codepoint (Byte.to_N c0) = Some [c0].
Proof.
  intros H. unfold encode_codepoint. settle_cmp.
  now rewrite byte_of_N_to_N.
Qed.

Lemma utf8_encode_cons (c : codepoint) (s : pystr) (b bs : bytes) :
  encode_codepoint c = Some b -> utf8_encode s = Some bs ->
  utf8_encode (c :: s) = Some (b ++ bs).
Proof. intros Hc Hs. cbn [utf8_encode]. now rewrite Hc, Hs. Qed.

Lemma utf8_encode_decode_len (n : nat) :
  forall (bs : bytes) (s : pystr),
    (List.length bs <= n)%nat ->
    utf8_decode bs = Some s -> utf8_encode s = Some bs.
Proof.
  induction n as [|n IH]; intros bs s Hlen.
  - destruct bs; [|cbn in Hlen; lia].
    cbn. now intros E; apply Some_inj in E; subst s.
  - destruct bs as [|c0 r0].
    { cbn. now intros E; apply Some_inj in E; subst s. }
    rewrite utf8_decode_cons. cbv zeta.
    destruct (N.ltb_spec (Byte.to_N c0) 0x80) as [L1|L1].
    { intros E. apply option_map_cons_Some in E.
      destruct E as (s' & E & ->).
      apply (@utf8_encode_cons _ _ [c0] _).
      - now apply encode_decoded_1.
      - apply IH; [cbn in Hlen; lia|exact E]. }
    destruct (N.ltb_spec (Byte.to_N c0) 0xC2) as [L2|L2]; [discriminate|].
    destruct (N.ltb_spec (Byte.to_N c0) 0xE0) as [L3|L3].
    { destruct r0 as [|c1 r1]; [discriminate|].
      destruct (is_cont (Byte.to_N c1)) eqn:C1; [|discriminate].
      intros E. apply option_map_cons_Some in E.
      destruct E as (s' & E & ->).
      apply (@utf8_encode_cons _ _ [c0; c1] _).
      - now apply encode_decoded_2.
      - apply IH; [cbn in Hlen; lia|exact E]. }
    destruct (N.ltb_spec (Byte.to_N c0) 0xF0) as [L4|L4].
    { destruct r0 as [|c1 [|c2 r2]]; try discriminate.
      destruct (is_second (Byte.to_N c0) (Byte.to_N c1)) eqn:C1;
        [|discriminate].
      destruct (is_cont (Byte.to_N c2)) eqn:C2; [|discriminate].
      cbn [andb]. intros E. apply option_map_cons_Some in E.
      destruct E as (s' & E & ->).
      apply (@utf8_encode_cons _ _ [c0; c1; c2] _).
      - now apply encode_decoded_3.
      - apply IH; [cbn in Hlen; lia|exact E]. }
    destruct (N.ltb_spec (Byte.to_N c0) 0xF5) as [L5|L5]; [|discriminate].
    destruct r0 as [|c1 [|c2 [|c3 r3]]]; try discriminate.
    destruct (is_second (Byte.to_N c0) (Byte.to_N c1)) eqn:C1;
      [|discriminate].
    destruct (is_cont (Byte.to_N c2)) eqn:C2; [|discriminate].
    destruct (is_cont (Byte.to_N c3)) eqn:C3; [|discriminate].
    cbn [andb]. intros E. apply option_map_cons_Some in E.
    destruct E as (s' & E & ->).
    apply (@utf8_encode_cons _ _ [c0; c1; c2; c3] _).
    + now apply encode_decoded_4.
    + apply IH; [cbn in Hlen; lia|exact E].
Qed.

Theorem utf8_encode_decode (bs : bytes) (s : pystr) :
  utf8_decode bs = Some s -> utf8_encode s = Some bs.
Proof. apply (@utf8_encode_decode_len (List.length bs)). lia. Qed.

Theorem valid_utf8_decodes (bs : bytes) :
  valid_utf8 bs <-> exists s, utf8_decode bs = Some s.
Proof.
  split; intros [s H]; exists s.
  - now apply utf8_decode_encode.
  - now apply utf8_encode_decode.
Qed.

Theorem invalid_utf8_fails (bs : bytes) :
  ~ valid_utf8 bs <-> utf8_decode bs = None.
Proof.
  rewrite valid_utf8_decodes. split.
  - intros H. destruct (utf8_decode bs) as [s|]; [|reflexivity].
    exfalso. apply H. now exists s.
  - intros H [s Hs]. congruence.
Qed.

(* ================================================================= *)
(** ** Strings: literals, equality, join *)

Lemma pystr_eqb_eq (a b : pystr) : pystr_eqb a b = true <-> a = b.
Proof.
  unfold pystr_eqb. destruct (list_eq_dec N.eq_dec a b); split;
    congruence.
Qed.

Lemma pystr_eqb_refl (a : pystr) : pystr_eqb a a = true.
Proof. now apply pystr_eqb_eq. Qed.

Lemma pystr_eqb_neq (a b : pystr) : a <> b -> pystr_eqb a b = false.
Proof.
  intros H. destruct (pystr_eqb a b) eqn:E; [|reflexivity].
  now apply pystr_eqb_eq in E.
Qed.

Lemma truthy_false_str_of (o : option pystr) :
  truthy o = false -> str_of o = [].
Proof. destruct o as [[|c s]|]; cbn; congruence. Qed.

(** [join] puts the first item first and the separator before each later
    item. *)
Lemma str_join_cons (sep x : pystr) (rest : list pystr) :
  str_join sep (x :: rest) = x ++ List.concat (map (app sep) rest).
Proof.
  revert x. induction rest as [|y rest IH]; intros x.
  - cbn. now rewrite app_nil_r.
  - change (str_join sep (x :: y :: rest))
      with (x ++ sep ++ str_join sep (y :: rest)).
    rewrite IH. cbn [map List.concat]. now rewrite <- app_assoc.
Qed.

(** ... and, read from the other end, the separator after each item but
    the last. *)
Lemma str_join_snoc (sep x : pystr) (init : list pystr) :
  str_join sep (init ++ [x]) = List.concat (map (fun t => t ++ sep) init) ++ x.
Proof.
  induction init as [|y init IH].
  - reflexivity.
  - cbn [app map List.concat].
    destruct (init ++ [x]) as [|z l] eqn:E.
    + now destruct init.
    + change (str_join sep (y :: z :: l))
        with (y ++ sep ++ str_join sep (z :: l)).
      rewrite IH. now rewrite !app_assoc.
Qed.

(** A join of [n] items holds exactly [n - 1] separators, whatever the
    items are. *)
Lemma str_join_length (sep : pystr) (items : list pystr) :
  List.length (str_join sep items)
  = (total_length items + (List.length items - 1) * List.length sep)%nat.
Proof.
  destruct items as [|x rest]; [reflexivity|].
  rewrite str_join_cons, length_app. cbn [total_length List.length].
  replace (S (List.length rest) - 1)%nat with (List.length rest) by lia.
  rewrite <- Nat.add_assoc. f_equal. clear x.
  induction rest as [|y rest IH]; [reflexivity|].
  cbn [map List.concat total_length List.length Nat.mul].
  rewrite !length_app, IH. lia.
Qed.

(* ================================================================= *)
(** ** The factory *)

Lemma supported_types_NoDup :
  NoDup supported_types.
Proof.
  unfold supported_types.
  repeat constructor; cbn [In]; intuition discriminate.
Qed.

Lemma get_file_handler_pdf (env : Env) :
  get_file_handler (lit "application/pdf") env = (Return PDFHandler, env).
Proof. reflexivity. Qed.

Lemma get_file_handler_docx (env : Env) :
  get_file_handler
    (lit "application/vnd.openxmlformats-officedocument.wordprocessingml.document")
    env
  = (Return DocxHandler, env).
Proof. reflexivity. Qed.

Lemma get_file_handler_txt (env : Env) :
  get_file_handler (lit "text/plain") env = (Return TxtHandler, env).
Proof. reflexivity. Qed.

Lemma get_file_handler_csv (env : Env) :
  get_file_handler (lit "text/csv") env = (Return CSVFileHandler, env).
Proof. reflexivity. Qed.

Lemma get_file_handler_other (file_type : pystr) (env : Env) :
  ~ In file_type supported_types ->
  get_file_handler file_type env = (Raise (ValueError "Invalid file type"), env).
Proof.
  intros H. unfold get_file_handler.
  rewrite !pystr_eqb_neq; [reflexivity| | | |];
    intros ->; apply H; unfold supported_types; cbn [In]; tauto.
Qed.

(** Every call falls in exactly one of the five branches. *)
Lemma get_file_handler_cases (file_type : pystr) (env : Env) :
  (file_type = lit "application/pdf"
   /\ get_file_handler file_type env = (Return PDFHandler, env))
  \/ (file_type
      = lit "application/vnd.openxmlformats-officedocument.wordprocessingml.document"
      /\ get_file_handler file_type env = (Return DocxHandler, env))
  \/ (file_type = lit "text/plain"
      /\ get_file_handler file_type env = (Return TxtHandler, env))
  \/ (file_type = lit "text/csv"
      /\ get_file_handler file_type env = (Return CSVFileHandler, env))
  \/ (~ In file_type supported_types
      /\ get_file_handler file_type env
         = (Raise (ValueError "Invalid file type"), env)).
Proof.
  destruct (in_dec (list_eq_dec N.eq_dec) file_type supported_types)
    as [Hin|Hout].
  - unfold supported_types in Hin. cbn [In] in Hin.
    destruct Hin as [<-|[<-|[<-|[<-|[]]]]]; auto 6.
  - do 4 right. split; [exact Hout|]. now apply get_file_handler_other.
Qed.

(* ================================================================= *)
(** ** The handlers *)

Lemma with_stream_same (f : UploadedFile) : with_stream f (stream f) = f.
Proof. now destruct f. Qed.

Section HandlerFacts.

Variable pdf : PdfLibrary.
Variable docx : DocxLibrary.

(** A handler whose [except Exception] clause prints and returns the
    empty string gives back a value whatever its [try] block does. *)
Lemma try_except_Exception (body : M pyval) (prefix : string) (env : Env) :
  try_except body except_Exception
    (fun e => print prefix e ;;; ret (PyStr [])) env
  = match body env with
    | (Return v, env') => (Return v, env')
    | (Raise e, env') =>
        (Return (PyStr []), mkEnv (file env') (stdout env' ++ [(prefix, e)]))
    end.
Proof.
  unfold try_except. destruct (body env) as [[v|e] env']; reflexivity.
Qed.

(** The page loop leaves the file and the output alone, and its result
    does not depend on them. *)
Lemma for_page_in_pure (it : iterator (page_object pdf)) :
  forall text : pystr,
    exists o : outcome pystr,
      forall env : Env, for_page_in pdf it text env = (o, env).
Proof.
  induction it as [|page rest IH|e]; intros text; cbn [for_page_in].
  - now exists (Return text).
  - unfold bind, lift.
    destruct (extract_text pdf page) as [page_text|e].
    + destruct (truthy page_text); apply IH.
    + now exists (Raise e).
  - now exists (Raise e).
Qed.

(** On pages that all extract, the loop appends each page's text, an
    empty or missing one adding nothing. *)
Lemma for_page_in_extracted (ps : list (page_object pdf)) :
  forall (ts : list (option pystr)) (text : pystr) (env : Env),
    map (extract_text pdf) ps = map Return ts ->
    for_page_in pdf (iter_of_list ps) text env
    = (Return (text ++ List.concat (map str_of ts)), env).
Proof.
  induction ps as [|p ps IH]; intros [|t ts] text env H;
    try discriminate H.
  - cbn. now rewrite app_nil_r.
  - cbn [map] in H. injection H as Hp Hps.
    cbn [iter_of_list for_page_in]. unfold bind, lift. rewrite Hp.
    cbn [map List.concat].
    destruct (truthy t) eqn:Et.
    + rewrite (IH ts _ env Hps). now rewrite <- app_assoc.
    + rewrite (IH ts _ env Hps), (truthy_false_str_of t Et). reflexivity.
Qed.

Lemma paragraph_texts_pure (ps : list (paragraph docx)) :
  exists o : outcome (list pystr),
    forall env : Env, paragraph_texts docx ps env = (o, env).
Proof.
  induction ps as [|p ps [o IH]]; cbn [paragraph_texts].
  - now exists (Return []).
  - unfold bind, lift.
    destruct (paragraph_text docx p) as [t|e].
    + destruct o as [ts|e].
      * exists (Return (t :: ts)). intros env. now rewrite IH.
      * exists (Raise e). intros env. now rewrite IH.
    + now exists (Raise e).
Qed.

Lemma paragraph_texts_read (ps : list (paragraph docx)) :
  forall (ts : list pystr) (env : Env),
    map (paragraph_text docx) ps = map Return ts ->
    paragraph_texts docx ps env = (Return ts, env).
Proof.
  induction ps as [|p ps IH]; intros [|t ts] env H; try discriminate H.
  - reflexivity.
  - cbn [map] in H. injection H as Hp Hps.
    cbn [paragraph_texts]. unfold bind, lift.
    now rewrite Hp, (IH ts env Hps).
Qed.

Lemma file_read_open (f : UploadedFile) (out : list printed) :
  closed (stream f) = false ->
  file_read (mkEnv f out)
  = (Return (remaining (stream f)),
     mkEnv (with_stream f (at_end (stream f))) out).
Proof.
  intros H. unfold file_read, on_stream, BytesIO_read. cbn [file stdout].
  now rewrite H.
Qed.

Lemma file_read_closed (f : UploadedFile) (out : list printed) :
  closed (stream f) = true ->
  file_read (mkEnv f out)
  = (Raise (ValueError "I/O operation on closed file."), mkEnv f out).
Proof.
  intros H. unfold file_read, on_stream, BytesIO_read. cbn [file stdout].
  now rewrite H, with_stream_same.
Qed.

(** The [try] block shared by the text and CSV handlers, on an open
    stream: the decoded text, or [UnicodeDecodeError]. *)
Lemma read_decode_open (f : UploadedFile) (out : list printed) :
  closed (stream f) = false ->
  (data <- file_read ;; text <- decode_utf8 data ;; ret (PyStr text))
    (mkEnv f out)
  = (match utf8_decode (remaining (stream f)) with
     | Some s => Return (PyStr s)
     | None => Raise UnicodeDecodeError
     end,
     mkEnv (with_stream f (at_end (stream f))) out).
Proof.
  intros H. unfold bind. rewrite (file_read_open f out H).
  unfold decode_utf8.
  destruct (utf8_decode (remaining (stream f))); reflexivity.
Qed.

Lemma read_decode_closed (f : UploadedFile) (out : list printed) :
  closed (stream f) = true ->
  (data <- file_read ;; text <- decode_utf8 data ;; ret (PyStr text))
    (mkEnv f out)
  = (Raise (ValueError "I/O operation on closed file."), mkEnv f out).
Proof.
  intros H. unfold bind. now rewrite (file_read_closed f out H).
Qed.

(** The text handler on an open stream. *)
Lemma TxtHandler_open (f : UploadedFile) (out : list printed) :
  closed (stream f) = false ->
  run (read_file pdf docx TxtHandler) f out
  = match utf8_decode (remaining (stream f)) with
    | Some s =>
        (Return (PyStr s), mkEnv (with_stream f (at_end (stream f))) out)
    | None =>
        (Return (PyStr []),
         mkEnv (with_stream f (at_end (stream f)))
               (out ++ [("Error reading text file: "%string,
                         UnicodeDecodeError)]))
    end.
Proof.
  intros H. unfold run, read_file, TxtHandler_read_file.
  rewrite try_except_Exception. unfold TxtHandler_try.
  rewrite (read_decode_open f out H).
  destruct (utf8_decode (remaining (stream f))); reflexivity.
Qed.

(** The text handler on a closed stream: the [ValueError] of [read] is
    absorbed like any other exception. *)
Lemma TxtHandler_closed (f : UploadedFile) (out : list printed) :
  closed (stream f) = true ->
  run (read_file pdf docx TxtHandler) f out
  = (Return (PyStr []),
     mkEnv f (out ++ [("Error reading text file: "%string,
                       ValueError "I/O operation on closed file.")])).
Proof.
  intros H. unfold run, read_file, TxtHandler_read_file.
  rewrite try_except_Exception. unfold TxtHandler_try.
  now rewrite (read_decode_closed f out H).
Qed.

(** The CSV handler on an open stream. *)
Lemma CSVFileHandler_open (f : UploadedFile) (out : list printed) :
  closed (stream f) = false ->
  run (read_file pdf docx CSVFileHandler) f out
  = (match utf8_decode (remaining (stream f)) with
     | Some s => Return (PyStr s)
     | None => Return PyNone
     end,
     mkEnv (with_stream f (at_end (stream f))) out).
Proof.
  intros H. unfold run, read_file, CSVFileHandler_read_file, try_except.
  unfold CSVFileHandler_try. rewrite (read_decode_open f out H).
  destruct (utf8_decode (remaining (stream f))); reflexivity.
Qed.

(** The CSV handler on a closed stream: its [except] clause names
    [UnicodeDecodeError] only, so the [ValueError] of [read] goes on to
    the caller. *)
Lemma CSVFileHandler_closed (f : UploadedFile) (out : list printed) :
  closed (stream f) = true ->
  run (read_file pdf docx CSVFileHandler) f out
  = (Raise (ValueError "I/O operation on closed file."), mkEnv f out).
Proof.
  intros H. unfold run, read_file, CSVFileHandler_read_file, try_except.
  unfold CSVFileHandler_try. now rewrite (read_decode_closed f out H).
Qed.

(** The PDF handler, by what its [try] block does. *)
Lemma PDFHandler_run (f : UploadedFile) (out : list printed) :
  run (read_file pdf docx PDFHandler) f out
  = match PDFHandler_try pdf (mkEnv f out) with
    | (Return v, env') => (Return v, env')
    | (Raise e, env') =>
        (Return (PyStr []),
         mkEnv (file env')
               (stdout env' ++ [("Error reading file: "%string, e)]))
    end.
Proof.
  unfold run, read_file, PDFHandler_read_file.
  now rewrite try_except_Exception.
Qed.

Lemma DocxHandler_run (f : UploadedFile) (out : list printed) :
  run (read_file pdf docx DocxHandler) f out
  = match DocxHandler_try docx (mkEnv f out) with
    | (Return v, env') => (Return v, env')
    | (Raise e, env') =>
        (Return (PyStr []),
         mkEnv (file env')
               (stdout env' ++ [("Error reading Word file: "%string, e)]))
    end.
Proof.
  unfold run, read_file, DocxHandler_read_file.
  now rewrite try_except_Exception.
Qed.

(** What a call gives back, where it leaves the stream and what it prints
    are determined by the stream it is given: not by the file's name or
    declared type, and not by what was printed before. *)
Lemma read_file_by_stream (h : FileHandler) (b : BytesIO) :
  exists (o : outcome pyval) (b' : BytesIO) (lines : list printed),
    forall (f : UploadedFile) (out : list printed),
      stream f = b ->
      run (read_file pdf docx h) f out
      = (o, mkEnv (with_stream f b') (out ++ lines)).
Proof.
  destruct h.
  - (* PDF *)
    destruct (PdfReader pdf b) as [[reader|e] b'] eqn:Er.
    + destruct (for_page_in_pure (pages pdf reader) []) as [[text|e] Hloop].
      * exists (Return (PyStr text)), b', [].
        intros f out <-. rewrite PDFHandler_run.
        unfold PDFHandler_try, bind, on_stream. cbn [file stdout].
        rewrite Er, Hloop. now rewrite app_nil_r.
      * exists (Return (PyStr [])), b', [("Error reading file: "%string, e)].
        intros f out <-. rewrite PDFHandler_run.
        unfold PDFHandler_try, bind, on_stream. cbn [file stdout].
        now rewrite Er, Hloop.
    + exists (Return (PyStr [])), b', [("Error reading file: "%string, e)].
      intros f out <-. rewrite PDFHandler_run.
      unfold PDFHandler_try, bind, on_stream. cbn [file stdout].
      now rewrite Er.
  - (* Word *)
    destruct (Document docx b) as [[doc|e] b'] eqn:Ed.
    + destruct (paragraphs docx doc) as [ps|e] eqn:Eps.
      * destruct (paragraph_texts_pure ps) as [[ts|e] Hts].
        -- exists (Return (PyStr (str_join (lit " ") ts))), b', [].
           intros f out <-. rewrite DocxHandler_run.
           unfold DocxHandler_try, bind, on_stream, lift. cbn [file stdout].
           rewrite Ed, Eps, Hts. now rewrite app_nil_r.
        -- exists (Return (PyStr [])), b',
             [("Error reading Word file: "%string, e)].
           intros f out <-. rewrite DocxHandler_run.
           unfold DocxHandler_try, bind, on_stream, lift. cbn [file stdout].
           now rewrite Ed, Eps, Hts.
      * exists (Return (PyStr [])), b',
          [("Error reading Word file: "%string, e)].
        intros f out <-. rewrite DocxHandler_run.
        unfold DocxHandler_try, bind, on_stream, lift. cbn [file stdout].
        now rewrite Ed, Eps.
    + exists (Return (PyStr [])), b',
        [("Error reading Word file: "%string, e)].
      intros f out <-. rewrite DocxHandler_run.
      unfold DocxHandler_try, bind, on_stream. cbn [file stdout].
      now rewrite Ed.
  - (* text *)
    destruct (closed b) eqn:Ec.
    + exists (Return (PyStr [])), b,
        [("Error reading text file: "%string,
          ValueError "I/O operation on closed file.")].
      intros f out <-. rewrite (TxtHandler_closed f out Ec).
      now rewrite with_stream_same.
    + destruct (utf8_decode (remaining b)) as [s|] eqn:Es.
      * exists (Return (PyStr s)), (at_end b), [].
        intros f out <-. rewrite (TxtHandler_open f out Ec), Es.
        now rewrite app_nil_r.
      * exists (Return (PyStr [])), (at_end b),
          [("Error reading text file: "%string, UnicodeDecodeError)].
        intros f out <-. now rewrite (TxtHandler_open f out Ec), Es.
  - (* CSV *)
    destruct (closed b) eqn:Ec.
    + exists (Raise (ValueError "I/O operation on closed file.")), b, [].
      intros f out <-. rewrite (CSVFileHandler_closed f out Ec).
      now rewrite with_stream_same, app_nil_r.
    + exists (match utf8_decode (remaining b) with
              | Some s => Return (PyStr s)
              | None => Return PyNone
              end), (at_end b), [].
      intros f out <-. rewrite (CSVFileHandler_open f out Ec).
      now rewrite app_nil_r.
Qed.

(** Three of the handlers give back a value on any file object at all. *)
Lemma read_file_returns_unless_csv (h : FileHandler) (f : UploadedFile)
    (out : list printed) :
  h <> CSVFileHandler ->
  exists (v : pyval) (env' : Env),
    run (read_file pdf docx h) f out = (Return v, env').
Proof.
  intros Hh. destruct h; [| | |congruence].
  - rewrite PDFHandler_run.
    destruct (PDFHandler_try pdf (mkEnv f out)) as [[v|e] env']; eauto.
  - rewrite DocxHandler_run.
    destruct (DocxHandler_try docx (mkEnv f out)) as [[v|e] env']; eauto.
  - destruct (closed (stream f)) eqn:Ec.
    + rewrite (TxtHandler_closed f out Ec). eauto.
    + rewrite (TxtHandler_open f out Ec).
      destruct (utf8_decode (remaining (stream f))); eauto.
Qed.

End HandlerFacts.

(* ================================================================= *)
(** ** The factory: dispatch on the content type *)

(** C1: for each of the four content types ["application/pdf"],
    ["application/vnd.openxmlformats-officedocument.wordprocessingml.document"],
    ["text/plain"] and ["text/csv"], [get_file_handler] returns the handler
    of that format; for any other string it raises
    [ValueError("Invalid file type")], and nothing has been read from the
    file or printed. *)
Theorem get_file_handler_dispatch (file_type : pystr) (env : Env) :
  get_file_handler (lit "application/pdf") env = (Return PDFHandler, env)
  /\ get_file_handler
       (lit "application/vnd.openxmlformats-officedocument.wordprocessingml.document")
       env
     = (Return DocxHandler, env)
  /\ get_file_handler (lit "text/plain") env = (Return TxtHandler, env)
  /\ get_file_handler (lit "text/csv") env = (Return CSVFileHandler, env)
  /\ (~ In file_type supported_types ->
      get_file_handler file_type env
      = (Raise (ValueError "Invalid file type"), env)).
Proof.
  repeat split.
  apply get_file_handler_other.
Qed.

Lemma get_file_handler_dispatch_witness :
  ~ In (lit "image/png") supported_types
  /\ get_file_handler (lit "image/png") (mkEnv sample_text [])
     = (Raise (ValueError "Invalid file type"), mkEnv sample_text []).
Proof.
  assert (~ In (lit "image/png") supported_types) as H.
  { unfold supported_types. cbn [In]. intuition discriminate. }
  split; [exact H|].
  apply (get_file_handler_dispatch (lit "image/png") (mkEnv sample_text [])).
  exact H.
Defined.

(** C8: the binding of content types to handlers is total on the four
    supported types and one-to-one: every supported type has a handler, no
    two types share one, every handler is bound to a supported type, and a
    type outside the four gets no handler but an exception. *)
Theorem handler_binding_one_to_one :
  (forall t : pystr, In t supported_types ->
     exists h : FileHandler,
       forall env : Env, get_file_handler t env = (Return h, env))
  /\ (forall (t1 t2 : pystr) (h : FileHandler) (env1 env2 : Env),
        get_file_handler t1 env1 = (Return h, env1) ->
        get_file_handler t2 env2 = (Return h, env2) ->
        t1 = t2)
  /\ (forall h : FileHandler,
        exists t : pystr,
          In t supported_types
          /\ forall env : Env, get_file_handler t env = (Return h, env))
  /\ (forall (t : pystr) (env : Env), ~ In t supported_types ->
        exists e : exn, get_file_handler t env = (Raise e, env))
  /\ List.length supported_types = 4%nat
  /\ NoDup supported_types.
Proof.
  split; [|split; [|split; [|split; [|split]]]].
  - intros t Hin. unfold supported_types in Hin. cbn [In] in Hin.
    destruct Hin as [<-|[<-|[<-|[<-|[]]]]];
      [exists PDFHandler|exists DocxHandler|exists TxtHandler
      |exists CSVFileHandler]; reflexivity.
  - intros t1 t2 h env1 env2 H1 H2.
    destruct (get_file_handler_cases t1 env1)
      as [[-> E1]|[[-> E1]|[[-> E1]|[[-> E1]|[_ E1]]]]];
      rewrite E1 in H1; try discriminate H1;
      injection H1 as <-;
      (destruct (get_file_handler_cases t2 env2)
        as [[-> E2]|[[-> E2]|[[-> E2]|[[-> E2]|[_ E2]]]]];
       rewrite E2 in H2; try discriminate H2; reflexivity).
  - intros h.
    destruct h;
      [exists (lit "application/pdf")
      |exists (lit "application/vnd.openxmlformats-officedocument.wordprocessingml.document")
      |exists (lit "text/plain")
      |exists (lit "text/csv")];
      (split; [unfold supported_types; cbn [In]; tauto|reflexivity]).
  - intros t env Hout. exists (ValueError "Invalid file type").
    now apply get_file_handler_other.
  - reflexivity.
  - exact supported_types_NoDup.
Qed.

Lemma handler_binding_one_to_one_witness :
  (exists h : FileHandler,
     forall env : Env,
       get_file_handler (lit "text/csv") env = (Return h, env))
  /\ (exists e : exn,
        get_file_handler (lit "image/png") (mkEnv sample_text [])
        = (Raise e, mkEnv sample_text [])).
Proof.
  split.
  - apply (proj1 handler_binding_one_to_one (lit "text/csv")).
    unfold supported_types. cbn [In]. tauto.
  - apply (proj1 (proj2 (proj2 (proj2 handler_binding_one_to_one)))
             (lit "image/png") (mkEnv sample_text [])).
    unfold supported_types. cbn [In]. intuition discriminate.
Defined.

(* ================================================================= *)
(** ** The handlers: what [read_file] gives back *)

Section HandlerTheorems.

Variable pdf : PdfLibrary.
Variable docx : DocxLibrary.

(** C3: on a PDF that parses, whose [N] pages are all delivered and all
    extract, [PDFHandler.read_file] returns the pages' texts concatenated
    in page order with nothing between them; a page with no text ([None]
    or the empty string) adds nothing, and the pages after it are still
    extracted: the result is the concatenation over the pages that have
    text. *)
Theorem PDFHandler_concatenates_pages (f : UploadedFile)
    (out : list printed) (reader : pdf_reader pdf) (b' : BytesIO)
    (ps : list (page_object pdf)) (ts : list (option pystr)) :
  PdfReader pdf (stream f) = (Return reader, b') ->
  pages pdf reader = iter_of_list ps ->
  map (extract_text pdf) ps = map Return ts ->
  run (read_file pdf docx PDFHandler) f out
  = (Return (PyStr (List.concat (map str_of ts))),
     mkEnv (with_stream f b') out)
  /\ List.concat (map str_of ts)
     = List.concat (map str_of (filter truthy ts))
  /\ List.length ps = List.length ts.
Proof.
  intros Hreader Hpages Htexts. split; [|split].
  - rewrite PDFHandler_run. unfold PDFHandler_try, bind, on_stream.
    cbn [file stdout]. rewrite Hreader, Hpages.
    now rewrite (for_page_in_extracted pdf ps ts [] _ Htexts).
  - clear. induction ts as [|t ts IH]; [reflexivity|].
    cbn [map List.concat filter].
    destruct (truthy t) eqn:Et.
    + cbn [map List.concat]. now rewrite IH.
    + now rewrite (truthy_false_str_of t Et), IH.
  - rewrite <- (length_map (extract_text pdf) ps), Htexts.
    apply length_map.
Qed.

(** C7: when [PdfReader] raises on the file (corrupt structure,
    encryption, an unsupported feature), and more generally when anything
    raises inside the [try] block, [PDFHandler.read_file] prints the error
    and returns the empty string; no exception reaches the caller. *)
Theorem PDFHandler_corrupt_gives_empty (f : UploadedFile)
    (out : list printed) (e : exn) :
  (forall b' : BytesIO,
     PdfReader pdf (stream f) = (Raise e, b') ->
     run (read_file pdf docx PDFHandler) f out
     = (Return (PyStr []),
        mkEnv (with_stream f b')
              (out ++ [("Error reading file: "%string, e)])))
  /\ (forall env' : Env,
        PDFHandler_try pdf (mkEnv f out) = (Raise e, env') ->
        run (read_file pdf docx PDFHandler) f out
        = (Return (PyStr []),
           mkEnv (file env')
                 (stdout env' ++ [("Error reading file: "%string, e)]))).
Proof.
  split.
  - intros b' Hreader. rewrite PDFHandler_run.
    unfold PDFHandler_try, bind, on_stream. cbn [file stdout].
    now rewrite Hreader.
  - intros env' Htry. rewrite PDFHandler_run. now rewrite Htry.
Qed.

(** C5: on a Word document that parses and whose paragraphs all deliver
    their text, [DocxHandler.read_file] returns the paragraphs' texts in
    document order joined by single spaces: the first text comes first,
    each later one follows exactly one space, and the last text comes
    last. Paragraphs ["Hello"] and ["world"] give ["Hello world"]. *)
Theorem DocxHandler_joins_paragraphs (f : UploadedFile)
    (out : list printed) (doc : document docx) (b' : BytesIO)
    (ps : list (paragraph docx)) (ts : list pystr) :
  Document docx (stream f) = (Return doc, b') ->
  paragraphs docx doc = Return ps ->
  map (paragraph_text docx) ps = map Return ts ->
  run (read_file pdf docx DocxHandler) f out
  = (Return (PyStr (str_join (lit " ") ts)), mkEnv (with_stream f b') out)
  /\ (forall (t : pystr) (rest : list pystr), ts = t :: rest ->
        str_join (lit " ") ts
        = t ++ List.concat (map (app (lit " ")) rest))
  /\ (forall (init : list pystr) (t : pystr), ts = init ++ [t] ->
        str_join (lit " ") ts
        = List.concat (map (fun x => x ++ lit " ") init) ++ t)
  /\ (ts = [lit "Hello"; lit "world"] ->
        str_join (lit " ") ts = lit "Hello world").
Proof.
  intros Hdoc Hps Htexts. split; [|split; [|split]].
  - rewrite DocxHandler_run. unfold DocxHandler_try, bind, on_stream, lift.
    cbn [file stdout]. rewrite Hdoc, Hps.
    now rewrite (paragraph_texts_read docx ps ts _ Htexts).
  - intros t rest ->. apply str_join_cons.
  - intros init t ->. apply str_join_snoc.
  - intros ->. reflexivity.
Qed.

(** C10: [DocxHandler.read_file] does not skip empty paragraphs. The
    joined text of [n] paragraphs holds all their characters and exactly
    [n - 1] spaces, whether or not some paragraphs are empty, so
    paragraphs ["Hello"], [""], ["world"] give ["Hello  world"] with two
    spaces. [PDFHandler.read_file] differs: pages with texts ["Hello"],
    nothing, ["world"] give ["Helloworld"]. *)
Theorem DocxHandler_keeps_empty_paragraphs (f g : UploadedFile)
    (out : list printed) (doc : document docx) (b' : BytesIO)
    (ps : list (paragraph docx)) (ts : list pystr)
    (reader : pdf_reader pdf) (c' : BytesIO)
    (pgs : list (page_object pdf)) (blank : option pystr) :
  Document docx (stream f) = (Return doc, b') ->
  paragraphs docx doc = Return ps ->
  map (paragraph_text docx) ps = map Return ts ->
  PdfReader pdf (stream g) = (Return reader, c') ->
  pages pdf reader = iter_of_list pgs ->
  truthy blank = false ->
  map (extract_text pdf) pgs
  = map Return [Some (lit "Hello"); blank; Some (lit "world")] ->
  (exists joined : pystr,
     run (read_file pdf docx DocxHandler) f out
     = (Return (PyStr joined), mkEnv (with_stream f b') out)
     /\ List.length joined
        = (total_length ts + (List.length ts - 1))%nat)
  /\ (ts = [lit "Hello"; []; lit "world"] ->
      run (read_file pdf docx DocxHandler) f out
      = (Return (PyStr (lit "Hello  world")), mkEnv (with_stream f b') out))
  /\ run (read_file pdf docx PDFHandler) g out
     = (Return (PyStr (lit "Helloworld")), mkEnv (with_stream g c') out).
Proof.
  intros Hdoc Hps Htexts Hreader Hpages Hblank Hpg.
  assert (run (read_file pdf docx DocxHandler) f out
          = (Return (PyStr (str_join (lit " ") ts)),
             mkEnv (with_stream f b') out)) as Hrun.
  { rewrite DocxHandler_run. unfold DocxHandler_try, bind, on_stream, lift.
    cbn [file stdout]. rewrite Hdoc, Hps.
    now rewrite (paragraph_texts_read docx ps ts _ Htexts). }
  split; [|split].
  - exists (str_join (lit " ") ts). split; [exact Hrun|].
    rewrite str_join_length. cbn. lia.
  - intros E. rewrite Hrun, E. reflexivity.
  - rewrite PDFHandler_run. unfold PDFHandler_try, bind, on_stream.
    cbn [file stdout]. rewrite Hreader, Hpages.
    rewrite (for_page_in_extracted pdf pgs _ [] _ Hpg).
    cbn [map List.concat]. now rewrite (truthy_false_str_of blank Hblank).
Qed.

(** C6: when the bytes of an open file are the UTF-8 encoding of a string,
    [TxtHandler.read_file] returns exactly that string; when the bytes are
    not valid UTF-8 it returns the empty string and raises nothing. *)
Theorem TxtHandler_round_trip (f : UploadedFile) (out : list printed) :
  (forall s : pystr,
     closed (stream f) = false ->
     utf8_encode s = Some (remaining (stream f)) ->
     run (read_file pdf docx TxtHandler) f out
     = (Return (PyStr s), mkEnv (with_stream f (at_end (stream f))) out))
  /\ (~ valid_utf8 (remaining (stream f)) ->
      exists env' : Env,
        run (read_file pdf docx TxtHandler) f out
        = (Return (PyStr []), env')).
Proof.
  split.
  - intros s Hopen Henc. rewrite (TxtHandler_open pdf docx f out Hopen).
    now rewrite (utf8_decode_encode s _ Henc).
  - intros Hbad. apply invalid_utf8_fails in Hbad.
    destruct (closed (stream f)) eqn:Ec.
    + rewrite (TxtHandler_closed pdf docx f out Ec). eauto.
    + rewrite (TxtHandler_open pdf docx f out Ec), Hbad. eauto.
Qed.

(** C4: when the bytes of an open file are the UTF-8 encoding of a string,
    [CSVFileHandler.read_file] returns that string as it is; when they are
    not valid UTF-8 it returns [None], which is not the empty string. *)
Theorem CSVFileHandler_decodes (f : UploadedFile) (out : list printed) :
  closed (stream f) = false ->
  (forall s : pystr,
     utf8_encode s = Some (remaining (stream f)) ->
     run (read_file pdf docx CSVFileHandler) f out
     = (Return (PyStr s), mkEnv (with_stream f (at_end (stream f))) out))
  /\ (~ valid_utf8 (remaining (stream f)) ->
      run (read_file pdf docx CSVFileHandler) f out
      = (Return PyNone, mkEnv (with_stream f (at_end (stream f))) out))
  /\ PyNone <> PyStr [].
Proof.
  intros Hopen. rewrite (CSVFileHandler_open pdf docx f out Hopen).
  split; [|split].
  - intros s Henc. now rewrite (utf8_decode_encode s _ Henc).
  - intros Hbad. apply invalid_utf8_fails in Hbad. now rewrite Hbad.
  - discriminate.
Qed.

(** C2: on an open file, [read_file] of every handler gives back a value
    and raises nothing; when something fails inside its [try] block the
    value is the empty string or [None]. So of the two calls a client
    makes, [get_file_handler] then [read_file], only the first can raise,
    and what it raises is [ValueError("Invalid file type")], for a type
    outside the four. *)
Theorem read_file_absorbs_failures (h : FileHandler) (f : UploadedFile)
    (out : list printed) :
  closed (stream f) = false ->
  (exists (v : pyval) (env' : Env),
     run (read_file pdf docx h) f out = (Return v, env'))
  /\ (forall (e : exn) (env1 : Env),
        try_block pdf docx h (mkEnv f out) = (Raise e, env1) ->
        exists env' : Env,
          run (read_file pdf docx h) f out = (Return (PyStr []), env')
          \/ run (read_file pdf docx h) f out = (Return PyNone, env'))
  /\ (forall (file_type : pystr) (e : exn) (env' : Env),
        run (get_file_handler file_type) f out = (Raise e, env') ->
        e = ValueError "Invalid file type"
        /\ ~ In file_type supported_types
        /\ env' = mkEnv f out).
Proof.
  intros Hopen.
  assert (forall h0 : FileHandler,
            exists (v : pyval) (env' : Env),
              run (read_file pdf docx h0) f out = (Return v, env'))
    as Hret.
  { intros h0. destruct h0;
      try (apply read_file_returns_unless_csv; discriminate).
    rewrite (CSVFileHandler_open pdf docx f out Hopen).
    destruct (utf8_decode (remaining (stream f))); eauto. }
  split; [apply Hret|split].
  - intros e env1 Htry. destruct h; cbn [try_block] in Htry.
    + rewrite PDFHandler_run, Htry. eauto.
    + rewrite DocxHandler_run, Htry. eauto.
    + unfold run, read_file, TxtHandler_read_file.
      rewrite try_except_Exception, Htry. eauto.
    + rewrite (CSVFileHandler_open pdf docx f out Hopen).
      unfold CSVFileHandler_try in Htry.
      rewrite (read_decode_open f out Hopen) in Htry.
      destruct (utf8_decode (remaining (stream f))); [discriminate Htry|].
      eauto.
  - intros file_type e env'. unfold run.
    destruct (get_file_handler_cases file_type (mkEnv f out))
      as [[-> E]|[[-> E]|[[-> E]|[[-> E]|[Hout E]]]]]; rewrite E;
      try discriminate.
    intros [= <- <-]. auto.
Qed.

(** C9: two calls of [read_file] on two file objects that hold the same
    bytes at the same position give the same result, whatever the files
    are called and whatever was printed before: the value (or exception),
    the state the stream is left in and the lines printed all agree. *)
Theorem read_file_deterministic (h : FileHandler) (f1 f2 : UploadedFile)
    (out1 out2 : list printed) :
  stream f1 = stream f2 ->
  fst (run (read_file pdf docx h) f1 out1)
  = fst (run (read_file pdf docx h) f2 out2)
  /\ stream (file (snd (run (read_file pdf docx h) f1 out1)))
     = stream (file (snd (run (read_file pdf docx h) f2 out2)))
  /\ exists lines : list printed,
       stdout (snd (run (read_file pdf docx h) f1 out1)) = out1 ++ lines
       /\ stdout (snd (run (read_file pdf docx h) f2 out2)) = out2 ++ lines.
Proof.
  intros Hsame.
  destruct (read_file_by_stream pdf docx h (stream f1))
    as (o & b' & lines & Hrun).
  rewrite (Hrun f1 out1 eq_refl), (Hrun f2 out2 (eq_sym Hsame)).
  cbn [fst snd file stdout with_stream stream]. eauto.
Qed.

End HandlerTheorems.

(* ================================================================= *)
(** ** The theorems at work on the sample uploads *)

Lemma PDFHandler_concatenates_pages_witness :
  run (read_file toy_pdf toy_docx PDFHandler) sample_pdf []
  = (Return (PyStr (lit "Helloworld")), mkEnv sample_pdf []).
Proof.
  apply (PDFHandler_concatenates_pages toy_pdf toy_docx sample_pdf []
           [ascii_bytes "Hello"; []; ascii_bytes "world"]
           (stream sample_pdf)
           [ascii_bytes "Hello"; []; ascii_bytes "world"]
           [Some (lit "Hello"); None; Some (lit "world")]);
    reflexivity.
Defined.

Lemma PDFHandler_corrupt_gives_empty_witness :
  run (read_file toy_pdf toy_docx PDFHandler) sample_bad_pdf []
  = (Return (PyStr []),
     mkEnv sample_bad_pdf
       [("Error reading file: "%string,
         LibraryError "PdfReadError" "EOF marker not found")]).
Proof.
  apply (proj1 (PDFHandler_corrupt_gives_empty toy_pdf toy_docx
                  sample_bad_pdf []
                  (LibraryError "PdfReadError" "EOF marker not found"))
               (stream sample_bad_pdf)).
  reflexivity.
Defined.

Lemma DocxHandler_joins_paragraphs_witness :
  run (read_file toy_pdf toy_docx DocxHandler) sample_docx []
  = (Return (PyStr (lit "Hello world")), mkEnv sample_docx []).
Proof.
  apply (DocxHandler_joins_paragraphs toy_pdf toy_docx sample_docx []
           [ascii_bytes "Hello"; ascii_bytes "world"]
           (stream sample_docx)
           [ascii_bytes "Hello"; ascii_bytes "world"]
           [lit "Hello"; lit "world"]);
    reflexivity.
Defined.

Lemma DocxHandler_keeps_empty_paragraphs_witness :
  run (read_file toy_pdf toy_docx DocxHandler) sample_docx_gap []
  = (Return (PyStr (lit "Hello  world")), mkEnv sample_docx_gap [])
  /\ run (read_file toy_pdf toy_docx PDFHandler) sample_pdf []
     = (Return (PyStr (lit "Helloworld")), mkEnv sample_pdf []).
Proof.
  destruct (DocxHandler_keeps_empty_paragraphs toy_pdf toy_docx
              sample_docx_gap sample_pdf []
              [ascii_bytes "Hello"; []; ascii_bytes "world"]
              (stream sample_docx_gap)
              [ascii_bytes "Hello"; []; ascii_bytes "world"]
              [lit "Hello"; []; lit "world"]
              [ascii_bytes "Hello"; []; ascii_bytes "world"]
              (stream sample_pdf)
              [ascii_bytes "Hello"; []; ascii_bytes "world"]
              None
              eq_refl eq_refl eq_refl eq_refl eq_refl eq_refl eq_refl)
    as (_ & Hdocx & Hpdf).
  split; [exact (Hdocx eq_refl)|exact Hpdf].
Defined.

Lemma sample_bad_text_invalid :
  ~ valid_utf8 (remaining (stream sample_bad_text)).
Proof. now apply invalid_utf8_fails. Qed.

Lemma TxtHandler_round_trip_witness :
  run (read_file toy_pdf toy_docx TxtHandler) sample_text []
  = (Return (PyStr [8364; 65]),
     mkEnv (with_stream sample_text (at_end (stream sample_text))) [])
  /\ exists env' : Env,
       run (read_file toy_pdf toy_docx TxtHandler) sample_bad_text []
       = (Return (PyStr []), env').
Proof.
  split.
  - apply (proj1 (TxtHandler_round_trip toy_pdf toy_docx sample_text [])
                 [8364; 65]);
      reflexivity.
  - apply (proj2 (TxtHandler_round_trip toy_pdf toy_docx sample_bad_text [])).
    exact sample_bad_text_invalid.
Defined.

Lemma CSVFileHandler_decodes_witness :
  run (read_file toy_pdf toy_docx CSVFileHandler) sample_text []
  = (Return (PyStr [8364; 65]),
     mkEnv (with_stream sample_text (at_end (stream sample_text))) [])
  /\ run (read_file toy_pdf toy_docx CSVFileHandler) sample_bad_text []
     = (Return PyNone,
        mkEnv (with_stream sample_bad_text
                 (at_end (stream sample_bad_text))) []).
Proof.
  split.
  - apply (proj1 (CSVFileHandler_decodes toy_pdf toy_docx sample_text []
                    eq_refl) [8364; 65]).
    reflexivity.
  - apply (proj1 (proj2 (CSVFileHandler_decodes toy_pdf toy_docx
                           sample_bad_text [] eq_refl))).
    exact sample_bad_text_invalid.
Defined.

Lemma read_file_absorbs_failures_witness :
  (exists (v : pyval) (env' : Env),
     run (read_file toy_pdf toy_docx CSVFileHandler) sample_bad_text []
     = (Return v, env'))
  /\ (exists env' : Env,
        run (read_file toy_pdf toy_docx TxtHandler) sample_bad_text []
        = (Return (PyStr []), env')
        \/ run (read_file toy_pdf toy_docx TxtHandler) sample_bad_text []
           = (Return PyNone, env'))
  /\ ~ In (lit "image/png") supported_types.
Proof.
  split; [|split].
  - apply (proj1 (read_file_absorbs_failures toy_pdf toy_docx
                    CSVFileHandler sample_bad_text [] eq_refl)).
  - apply (proj1 (proj2 (read_file_absorbs_failures toy_pdf toy_docx
                           TxtHandler sample_bad_text [] eq_refl))
                 UnicodeDecodeError
                 (mkEnv (with_stream sample_bad_text
                           (at_end (stream sample_bad_text))) [])).
    reflexivity.
  - apply (proj2 (proj2 (read_file_absorbs_failures toy_pdf toy_docx
                           PDFHandler sample_pdf [] eq_refl))
                 (lit "image/png") (ValueError "Invalid file type")
                 (mkEnv sample_pdf [])).
    reflexivity.
Defined.

Lemma read_file_deterministic_witness :
  fst (run (read_file toy_pdf toy_docx TxtHandler)
         (upload (lit "a.txt") (lit "text/plain") [xe2; x82; xac; x41])
         [])
  = fst (run (read_file toy_pdf toy_docx TxtHandler)
           (upload (lit "b.txt") (lit "text/csv") [xe2; x82; xac; x41])
           [("Error reading file: "%string, UnicodeDecodeError)]).
Proof.
  apply (read_file_deterministic toy_pdf toy_docx TxtHandler
           (upload (lit "a.txt") (lit "text/plain") [xe2; x82; xac; x41])
           (upload (lit "b.txt") (lit "text/csv") [xe2; x82; xac; x41])
           []
           [("Error reading file: "%string, UnicodeDecodeError)]).
  reflexivity.
Defined.

(** Reading one file object twice is not two independent reads: the
    second call finds the stream at its end. *)
Example TxtHandler_same_object_twice :
  let first := run (read_file toy_pdf toy_docx TxtHandler) sample_text [] in
  fst first = Return (PyStr [8364; 65])
  /\ fst (read_file toy_pdf toy_docx TxtHandler (snd first))
     = Return (PyStr []).
Proof. split; reflexivity. Qed.

(** On a closed stream the CSV handler alone lets the [ValueError] of
    [read] through. *)
Example closed_stream_outcomes :
  let f := mkUploadedFile (lit "x") (lit "text/csv") (mkBytesIO [] 0 true) in
  fst (run (read_file toy_pdf toy_docx CSVFileHandler) f [])
  = Raise (ValueError "I/O operation on closed file.")
  /\ fst (run (read_file toy_pdf toy_docx TxtHandler) f [])
     = Return (PyStr [])
  /\ fst (run (read_file toy_pdf toy_docx PDFHandler) f [])
     = Return (PyStr [])
  /\ fst (run (read_file toy_pdf toy_docx DocxHandler) f [])
     = Return (PyStr []).
Proof. repeat split. Qed.

(* ================================================================= *)
(** ** More on the codec *)

Lemma encode_codepoint_shape (c : codepoint) (b : bytes) :
  encode_codepoint c = Some b ->
  is_scalar c = true /\ (1 <= List.length b <= 4)%nat.
Proof.
  unfold encode_codepoint, is_scalar.
  destruct (N.ltb_spec c 0x80).
  { intros E; apply Some_inj in E; subst b. split; [|cbn; lia].
    settle_cmp. reflexivity. }
  destruct (N.ltb_spec c 0x800).
  { intros E; apply Some_inj in E; subst b. split; [|cbn; lia].
    settle_cmp. reflexivity. }
  destruct (N.ltb_spec c 0x10000).
  { destruct (N.leb_spec 0xD800 c); destruct (N.leb_spec c 0xDFFF);
      cbn [andb]; try discriminate;
      intros E; apply Some_inj in E; subst b; (split; [|cbn; lia]);
      settle_cmp; reflexivity. }
  destruct (N.ltb_spec c 0x110000); [|discriminate].
  intros E; apply Some_inj in E; subst b. split; [|cbn; lia].
  settle_cmp. reflexivity.
Qed.

Lemma utf8_encode_shape (s : pystr) :
  forall bs : bytes,
    utf8_encode s = Some bs ->
    Forall (fun c => is_scalar c = true) s
    /\ (List.length s <= List.length bs <= 4 * List.length s)%nat.
Proof.
  induction s as [|c s IH]; intros bs; cbn [utf8_encode].
  - intros E; apply Some_inj in E; subst bs. split; [constructor|cbn; lia].
  - destruct (encode_codepoint c) as [b|] eqn:Ec; [|discriminate].
    destruct (utf8_encode s) as [bs'|]; [|discriminate].
    intros E; apply Some_inj in E; subst bs.
    destruct (encode_codepoint_shape c b Ec) as (Hc & Hb).
    destruct (IH bs' eq_refl) as (Hs & Hlen).
    split; [now constructor|].
    rewrite length_app. cbn [List.length]. lia.
Qed.

Lemma utf8_decode_nil_inv (bs : bytes) : utf8_decode bs = Some [] -> bs = [].
Proof.
  intros H. apply utf8_encode_decode in H. cbn in H.
  now apply Some_inj in H.
Qed.

Lemma utf8_encode_app (s1 s2 : pystr) (b1 b2 : bytes) :
  utf8_encode s1 = Some b1 -> utf8_encode s2 = Some b2 ->
  utf8_encode (s1 ++ s2) = Some (b1 ++ b2).
Proof.
  revert b1. induction s1 as [|c s1 IH]; intros b1; cbn [utf8_encode app].
  - intros E; apply Some_inj in E; subst b1. auto.
  - destruct (encode_codepoint c) as [b|]; [|discriminate].
    destruct (utf8_encode s1) as [bs'|]; [|discriminate].
    intros E H2; apply Some_inj in E; subst b1.
    rewrite (IH bs' eq_refl H2). now rewrite app_assoc.
Qed.

(* ================================================================= *)
(** ** More on the stream *)

Lemma remaining_at_end (b : BytesIO) : remaining (at_end b) = [].
Proof.
  unfold remaining, at_end. cbn [pos buffer].
  apply skipn_all2. lia.
Qed.

Lemma at_end_at_end (b : BytesIO) : at_end (at_end b) = at_end b.
Proof.
  unfold at_end. cbn [pos buffer closed]. f_equal. lia.
Qed.

Lemma with_stream_with_stream (f : UploadedFile) (b1 b2 : BytesIO) :
  with_stream (with_stream f b1) b2 = with_stream f b2.
Proof. reflexivity. Qed.

(* ================================================================= *)
(** ** Beyond the return value: exceptions, output and the file object *)

Section HandlerEffects.

Variable pdf : PdfLibrary.
Variable docx : DocxLibrary.

(** A [try] block changes nothing but the file's stream: it prints
    nothing and leaves the file's name and declared type alone. *)
Lemma try_block_frame (h : FileHandler) (f : UploadedFile)
    (out : list printed) :
  exists (o : outcome pyval) (b' : BytesIO),
    try_block pdf docx h (mkEnv f out) = (o, mkEnv (with_stream f b') out).
Proof.
  destruct h; cbn [try_block].
  - unfold PDFHandler_try, bind, on_stream. cbn [file stdout].
    destruct (PdfReader pdf (stream f)) as [[reader|e] b'].
    + destruct (for_page_in_pure pdf (pages pdf reader) [])
        as [[text|e] Hloop]; rewrite Hloop; unfold ret; eauto.
    + eauto.
  - unfold DocxHandler_try, bind, on_stream, lift. cbn [file stdout].
    destruct (Document docx (stream f)) as [[doc|e] b']; [|eauto].
    destruct (paragraphs docx doc) as [ps|e]; [|eauto].
    destruct (paragraph_texts_pure docx ps) as [[ts|e] Hts];
      rewrite Hts; unfold ret; eauto.
  - unfold TxtHandler_try. destruct (closed (stream f)) eqn:Ec.
    + rewrite (read_decode_closed f out Ec).
      exists (Raise (ValueError "I/O operation on closed file.")), (stream f).
      now rewrite with_stream_same.
    + rewrite (read_decode_open f out Ec). eauto.
  - unfold CSVFileHandler_try. destruct (closed (stream f)) eqn:Ec.
    + rewrite (read_decode_closed f out Ec).
      exists (Raise (ValueError "I/O operation on closed file.")), (stream f).
      now rewrite with_stream_same.
    + rewrite (read_decode_open f out Ec). eauto.
Qed.

(** [read_file] in terms of its [try] block, for the three handlers whose
    clause is [except Exception]. *)
Lemma read_file_by_try_block (h : FileHandler) (p : string)
    (f : UploadedFile) (out : list printed) :
  error_prefix h = Some p ->
  run (read_file pdf docx h) f out
  = match try_block pdf docx h (mkEnv f out) with
    | (Return v, env') => (Return v, env')
    | (Raise e, env') =>
        (Return (PyStr []), mkEnv (file env') (stdout env' ++ [(p, e)]))
    end.
Proof.
  destruct h; cbn [error_prefix]; intros E; try discriminate E;
    apply Some_inj in E; subst p; cbn [try_block].
  - apply PDFHandler_run.
  - apply DocxHandler_run.
  - unfold run, read_file, TxtHandler_read_file.
    apply try_except_Exception.
Qed.

(** X1: [read_file] raises in one case only: the CSV handler on a closed
    stream. What comes out is then the [ValueError] of [read], and neither
    the file nor the output has changed. The other three handlers never
    raise, whatever the parser library or the stream does. *)
Theorem read_file_raises_iff (h : FileHandler) (f : UploadedFile)
    (out : list printed) (e : exn) (env' : Env) :
  run (read_file pdf docx h) f out = (Raise e, env')
  <-> h = CSVFileHandler
      /\ closed (stream f) = true
      /\ e = ValueError "I/O operation on closed file."
      /\ env' = mkEnv f out.
Proof.
  split.
  - intros Hraise. destruct h.
    + destruct (read_file_returns_unless_csv pdf docx PDFHandler
                  f out ltac:(discriminate)) as (v & env1 & Hv).
      rewrite Hv in Hraise. discriminate Hraise.
    + destruct (read_file_returns_unless_csv pdf docx DocxHandler
                  f out ltac:(discriminate)) as (v & env1 & Hv).
      rewrite Hv in Hraise. discriminate Hraise.
    + destruct (read_file_returns_unless_csv pdf docx TxtHandler
                  f out ltac:(discriminate)) as (v & env1 & Hv).
      rewrite Hv in Hraise. discriminate Hraise.
    + destruct (closed (stream f)) eqn:Ec.
      * rewrite (CSVFileHandler_closed pdf docx f out Ec) in Hraise.
        injection Hraise as <- <-. auto.
      * rewrite (CSVFileHandler_open pdf docx f out Ec) in Hraise.
        destruct (utf8_decode (remaining (stream f)));
          discriminate Hraise.
  - intros (-> & Ec & -> & ->). now apply CSVFileHandler_closed.
Qed.

(** X2: what [read_file] prints tells whether its [try] block failed.
    When the block returns, [read_file] returns the same value and prints
    nothing. When the block raises in the PDF, Word or text handler,
    [read_file] returns the empty string and prints exactly one line, made
    of the handler's prefix and that exception. The CSV handler never
    prints. Earlier output is never removed. *)
Theorem read_file_prints_iff_failed (h : FileHandler) (f : UploadedFile)
    (out : list printed) :
  let r := run (read_file pdf docx h) f out in
  match fst (try_block pdf docx h (mkEnv f out)) with
  | Return v => fst r = Return v /\ stdout (snd r) = out
  | Raise e =>
      match error_prefix h with
      | Some p => fst r = Return (PyStr []) /\ stdout (snd r) = out ++ [(p, e)]
      | None => stdout (snd r) = out
      end
  end.
Proof.
  cbv zeta.
  destruct (try_block_frame h f out) as (o & b' & Htry).
  destruct (error_prefix h) as [p|] eqn:Ep.
  - rewrite (read_file_by_try_block h p f out Ep), Htry. cbn [fst].
    destruct o as [v|e]; cbn [fst snd stdout]; auto.
  - destruct h; try discriminate Ep. rewrite Htry. cbn [fst].
    destruct (closed (stream f)) eqn:Ec.
    + rewrite (CSVFileHandler_closed pdf docx f out Ec).
      cbn [try_block] in Htry. unfold CSVFileHandler_try in Htry.
      rewrite (read_decode_closed f out Ec) in Htry.
      injection Htry as <- _. reflexivity.
    + rewrite (CSVFileHandler_open pdf docx f out Ec).
      cbn [try_block] in Htry. unfold CSVFileHandler_try in Htry.
      rewrite (read_decode_open f out Ec) in Htry.
      injection Htry as <- _.
      destruct (utf8_decode (remaining (stream f))); cbn [fst snd stdout];
        auto.
Qed.

(** X3: [read_file] never changes the name or the declared type of the
    file object. The text and CSV handlers moreover leave its content and
    its open/closed state as they were and never move the position
    backwards. *)
Theorem read_file_preserves_file (h : FileHandler) (f : UploadedFile)
    (out : list printed) :
  let f' := file (snd (run (read_file pdf docx h) f out)) in
  name f' = name f
  /\ mime_type f' = mime_type f
  /\ (h = TxtHandler \/ h = CSVFileHandler ->
      buffer (stream f') = buffer (stream f)
      /\ closed (stream f') = closed (stream f)
      /\ (pos (stream f) <= pos (stream f'))%nat).
Proof.
  cbv zeta.
  destruct (read_file_by_stream pdf docx h (stream f))
    as (o & b' & lines & Hrun).
  split; [|split].
  - now rewrite (Hrun f out eq_refl).
  - now rewrite (Hrun f out eq_refl).
  - clear o b' lines Hrun. intros [-> | ->];
      destruct (closed (stream f)) eqn:Ec.
    + rewrite (TxtHandler_closed pdf docx f out Ec).
      cbn [snd file]. rewrite Ec. auto.
    + rewrite (TxtHandler_open pdf docx f out Ec).
      destruct (utf8_decode (remaining (stream f)));
        cbn [snd file with_stream stream at_end buffer closed pos];
        rewrite ?Ec; repeat split; lia.
    + rewrite (CSVFileHandler_closed pdf docx f out Ec).
      cbn [snd file]. rewrite Ec. auto.
    + rewrite (CSVFileHandler_open pdf docx f out Ec).
      cbn [snd file with_stream stream at_end buffer closed pos].
      rewrite ?Ec; repeat split; lia.
Qed.

(** X4: reading is single pass. Once the text or the CSV handler has read
    an open file, a second [read_file] on the same file object, by either
    of the two handlers, finds nothing left: it returns the empty string,
    prints nothing and changes nothing. *)
Theorem second_read_is_empty (h1 h2 : FileHandler) (f : UploadedFile)
    (out : list printed) :
  h1 = TxtHandler \/ h1 = CSVFileHandler ->
  h2 = TxtHandler \/ h2 = CSVFileHandler ->
  closed (stream f) = false ->
  let env1 := snd (run (read_file pdf docx h1) f out) in
  read_file pdf docx h2 env1 = (Return (PyStr []), env1).
Proof.
  intros H1 H2 Hopen. cbv zeta.
  assert (exists out1 : list printed,
            snd (run (read_file pdf docx h1) f out)
            = mkEnv (with_stream f (at_end (stream f))) out1) as [out1 ->].
  { destruct H1 as [-> | ->].
    - rewrite (TxtHandler_open pdf docx f out Hopen).
      destruct (utf8_decode (remaining (stream f))); cbn [snd]; eauto.
    - rewrite (CSVFileHandler_open pdf docx f out Hopen). cbn [snd]. eauto. }
  set (f1 := with_stream f (at_end (stream f))).
  assert (closed (stream f1) = false) as Hopen1 by exact Hopen.
  assert (remaining (stream f1) = []) as Hrem
      by apply remaining_at_end.
  assert (with_stream f1 (at_end (stream f1)) = f1) as Hfix.
  { unfold f1. cbn [with_stream stream name mime_type].
    now rewrite at_end_at_end. }
  destruct H2 as [-> | ->].
  - change (read_file pdf docx TxtHandler (mkEnv f1 out1))
      with (run (read_file pdf docx TxtHandler) f1 out1).
    rewrite (TxtHandler_open pdf docx f1 out1 Hopen1), Hrem.
    cbn [utf8_decode]. now rewrite Hfix.
  - change (read_file pdf docx CSVFileHandler (mkEnv f1 out1))
      with (run (read_file pdf docx CSVFileHandler) f1 out1).
    rewrite (CSVFileHandler_open pdf docx f1 out1 Hopen1), Hrem.
    cbn [utf8_decode]. now rewrite Hfix.
Qed.

(** Pages that extract, in front of the rest of an iteration: the loop
    appends their texts and goes on with the rest. *)
Lemma for_page_in_prepend (ps : list (page_object pdf))
    (it : iterator (page_object pdf)) :
  forall (ts : list (option pystr)) (text : pystr) (env : Env),
    map (extract_text pdf) ps = map Return ts ->
    for_page_in pdf (iter_prepend ps it) text env
    = for_page_in pdf it (text ++ List.concat (map str_of ts)) env.
Proof.
  induction ps as [|p ps IH]; intros [|t ts] text env H;
    try discriminate H.
  - cbn. now rewrite app_nil_r.
  - cbn [map] in H. injection H as Hp Hps.
    cbn [iter_prepend for_page_in]. unfold bind, lift. rewrite Hp.
    cbn [map List.concat].
    destruct (truthy t) eqn:Et.
    + rewrite (IH ts _ env Hps). now rewrite <- app_assoc.
    + rewrite (IH ts _ env Hps), (truthy_false_str_of t Et). reflexivity.
Qed.

Lemma paragraph_texts_raises (ps1 ps2 : list (paragraph docx))
    (p : paragraph docx) (e : exn) :
  forall (ts : list pystr) (env : Env),
    map (paragraph_text docx) ps1 = map Return ts ->
    paragraph_text docx p = Raise e ->
    paragraph_texts docx (ps1 ++ p :: ps2) env = (Raise e, env).
Proof.
  induction ps1 as [|q ps1 IH]; intros [|t ts] env H Hp;
    try discriminate H.
  - cbn [app paragraph_texts]. unfold bind, lift. now rewrite Hp.
  - cbn [map] in H. injection H as Hq Hps.
    cbn [app paragraph_texts]. unfold bind, lift.
    now rewrite Hq, (IH ts env Hps Hp).
Qed.

(** X5: the PDF handler is all or nothing. When the document opens and
    some pages extract, but then fetching the next page raises, or the
    next page's [extract_text] raises, the text gathered so far is
    dropped: [read_file] prints that exception and returns the empty
    string, whatever the pages after it hold. *)
Theorem PDFHandler_discards_partial_text (f : UploadedFile)
    (out : list printed) (reader : pdf_reader pdf) (b' : BytesIO)
    (ps : list (page_object pdf)) (ts : list (option pystr)) (e : exn) :
  PdfReader pdf (stream f) = (Return reader, b') ->
  map (extract_text pdf) ps = map Return ts ->
  pages pdf reader = iter_prepend ps (IterRaise e)
  \/ (exists (p : page_object pdf) (rest : iterator (page_object pdf)),
        pages pdf reader = iter_prepend ps (Yield p rest)
        /\ extract_text pdf p = Raise e) ->
  run (read_file pdf docx PDFHandler) f out
  = (Return (PyStr []),
     mkEnv (with_stream f b') (out ++ [("Error reading file: "%string, e)])).
Proof.
  intros Hreader Htexts Hpages. rewrite PDFHandler_run.
  unfold PDFHandler_try, bind, on_stream. cbn [file stdout].
  rewrite Hreader.
  destruct Hpages as [-> | (p & rest & -> & Hp)];
    rewrite (for_page_in_prepend ps _ ts [] _ Htexts);
    cbn [for_page_in]; unfold bind, lift, raise; rewrite ?Hp; reflexivity.
Qed.

(** X6: the Word handler is all or nothing too. When the document opens
    but [doc.paragraphs] raises, or some paragraphs deliver their text and
    the next one raises, [read_file] prints that exception and returns the
    empty string, not the texts read so far. *)
Theorem DocxHandler_discards_partial_text (f : UploadedFile)
    (out : list printed) (doc : document docx) (b' : BytesIO) (e : exn) :
  Document docx (stream f) = (Return doc, b') ->
  paragraphs docx doc = Raise e
  \/ (exists (ps1 ps2 : list (paragraph docx)) (p : paragraph docx)
             (ts : list pystr),
        paragraphs docx doc = Return (ps1 ++ p :: ps2)
        /\ map (paragraph_text docx) ps1 = map Return ts
        /\ paragraph_text docx p = Raise e) ->
  run (read_file pdf docx DocxHandler) f out
  = (Return (PyStr []),
     mkEnv (with_stream f b')
           (out ++ [("Error reading Word file: "%string, e)])).
Proof.
  intros Hdoc Hps. rewrite DocxHandler_run.
  unfold DocxHandler_try, bind, on_stream, lift. cbn [file stdout].
  rewrite Hdoc.
  destruct Hps as [-> | (ps1 & ps2 & p & ts & -> & Hts & Hp)].
  - reflexivity.
  - now rewrite (paragraph_texts_raises ps1 ps2 p e ts _ Hts Hp).
Qed.

Lemma concat_str_of_length (ts : list (option pystr)) :
  List.length (List.concat (map str_of ts)) = total_length (map str_of ts).
Proof.
  induction ts as [|t ts IH]; [reflexivity|].
  cbn [map List.concat total_length]. now rewrite length_app, IH.
Qed.

Lemma concat_str_of_nil (ts : list (option pystr)) :
  List.concat (map str_of ts) = []
  <-> Forall (fun t => truthy t = false) ts.
Proof.
  induction ts as [|t ts IH]; cbn [map List.concat].
  - split; [constructor|reflexivity].
  - split.
    + intros H. apply app_eq_nil in H. destruct H as [Ht Hts].
      constructor; [|now apply IH].
      destruct t as [[|c s]|]; [reflexivity|discriminate Ht|reflexivity].
    + intros H. inversion H as [|t' ts' Ht Hts]; subst.
      rewrite (truthy_false_str_of t Ht). now apply IH.
Qed.

(** X7: on a PDF whose pages all extract, the text returned has exactly
    the characters of the pages' texts, none added, and it is empty exactly
    when no page has text. *)
Theorem PDFHandler_empty_iff_no_text (f : UploadedFile)
    (out : list printed) (reader : pdf_reader pdf) (b' : BytesIO)
    (ps : list (page_object pdf)) (ts : list (option pystr)) :
  PdfReader pdf (stream f) = (Return reader, b') ->
  pages pdf reader = iter_of_list ps ->
  map (extract_text pdf) ps = map Return ts ->
  exists text : pystr,
    run (read_file pdf docx PDFHandler) f out
    = (Return (PyStr text), mkEnv (with_stream f b') out)
    /\ List.length text = total_length (map str_of ts)
    /\ (text = [] <-> Forall (fun t => truthy t = false) ts).
Proof.
  intros Hreader Hpages Htexts.
  exists (List.concat (map str_of ts)). split; [|split].
  - rewrite PDFHandler_run. unfold PDFHandler_try, bind, on_stream.
    cbn [file stdout]. rewrite Hreader, Hpages.
    now rewrite (for_page_in_extracted pdf ps ts [] _ Htexts).
  - apply concat_str_of_length.
  - apply concat_str_of_nil.
Qed.

Lemma str_join_space_nil (ts : list pystr) :
  str_join (lit " ") ts = [] <-> ts = [] \/ ts = [[]].
Proof.
  split.
  - intros H. apply (f_equal (@List.length codepoint)) in H.
    rewrite str_join_length in H. cbn [List.length lit] in H.
    change (List.length (map N_of_ascii (list_ascii_of_string " ")))
      with 1%nat in H.
    destruct ts as [|t [|t' ts]]; [auto| |cbn in H; lia].
    right. cbn in H. destruct t; [reflexivity|cbn in H; lia].
  - intros [-> | ->]; reflexivity.
Qed.

(** X8: on a Word document whose paragraphs all deliver their text, a
    single paragraph comes back as it is, with no space added, and the
    text returned is empty exactly when the document has no paragraph or
    one empty paragraph. *)
Theorem DocxHandler_empty_iff_no_text (f : UploadedFile)
    (out : list printed) (doc : document docx) (b' : BytesIO)
    (ps : list (paragraph docx)) (ts : list pystr) :
  Document docx (stream f) = (Return doc, b') ->
  paragraphs docx doc = Return ps ->
  map (paragraph_text docx) ps = map Return ts ->
  exists text : pystr,
    run (read_file pdf docx DocxHandler) f out
    = (Return (PyStr text), mkEnv (with_stream f b') out)
    /\ (forall t : pystr, ts = [t] -> text = t)
    /\ (text = [] <-> ts = [] \/ ts = [[]]).
Proof.
  intros Hdoc Hps Htexts.
  exists (str_join (lit " ") ts). split; [|split].
  - rewrite DocxHandler_run. unfold DocxHandler_try, bind, on_stream, lift.
    cbn [file stdout]. rewrite Hdoc, Hps.
    now rewrite (paragraph_texts_read docx ps ts _ Htexts).
  - intros t ->. reflexivity.
  - apply str_join_space_nil.
Qed.

Lemma app_singleton_neq (A : Type) (l : list A) (x : A) : l <> l ++ [x].
Proof.
  intros H. apply (f_equal (@List.length A)) in H.
  rewrite length_app in H. cbn in H. lia.
Qed.

(** X9: on an open file the text and the CSV handler read the same bytes
    and agree: they leave the file in the same state; whenever the CSV
    handler returns a string, the text handler returns the same string and
    prints nothing; and the CSV handler returns [None] exactly when the
    text handler prints a [UnicodeDecodeError], in which case the text
    handler returns the empty string. *)
Theorem TxtHandler_CSVFileHandler_agree (f : UploadedFile)
    (out : list printed) :
  closed (stream f) = false ->
  let rt := run (read_file pdf docx TxtHandler) f out in
  let rc := run (read_file pdf docx CSVFileHandler) f out in
  file (snd rt) = file (snd rc)
  /\ (forall s : pystr,
        fst rc = Return (PyStr s) ->
        fst rt = Return (PyStr s) /\ stdout (snd rt) = out)
  /\ (fst rc = Return PyNone
      <-> stdout (snd rt)
          = out ++ [("Error reading text file: "%string,
                     UnicodeDecodeError)])
  /\ (fst rc = Return PyNone -> fst rt = Return (PyStr [])).
Proof.
  intros Hopen. cbv zeta.
  rewrite (TxtHandler_open pdf docx f out Hopen),
          (CSVFileHandler_open pdf docx f out Hopen).
  destruct (utf8_decode (remaining (stream f))) as [s|];
    cbn [fst snd file stdout]; (split; [reflexivity|split; [|split]]).
  - intros s' [= <-]. auto.
  - split; [discriminate|].
    intros H. now apply app_singleton_neq in H.
  - discriminate.
  - discriminate.
  - split; reflexivity.
  - reflexivity.
Qed.

(** X10: what an empty string means. From the CSV handler on an open file
    it always means that no bytes were left to read. From the text handler
    it means that no bytes were left or that the bytes were not valid
    UTF-8. *)
Theorem empty_string_meaning (f : UploadedFile) (out : list printed) :
  closed (stream f) = false ->
  (fst (run (read_file pdf docx CSVFileHandler) f out) = Return (PyStr [])
   <-> remaining (stream f) = [])
  /\ (fst (run (read_file pdf docx TxtHandler) f out) = Return (PyStr [])
      <-> remaining (stream f) = [] \/ ~ valid_utf8 (remaining (stream f))).
Proof.
  intros Hopen.
  rewrite (TxtHandler_open pdf docx f out Hopen),
          (CSVFileHandler_open pdf docx f out Hopen).
  destruct (utf8_decode (remaining (stream f))) as [s|] eqn:Es;
    cbn [fst]; split; split.
  - intros [= ->]. now apply utf8_decode_nil_inv.
  - intros Hnil. rewrite Hnil in Es. cbn in Es.
    apply Some_inj in Es. now subst s.
  - intros [= ->]. left. now apply utf8_decode_nil_inv.
  - intros [Hnil | Hbad].
    + rewrite Hnil in Es. cbn in Es. apply Some_inj in Es. now subst s.
    + apply invalid_utf8_fails in Hbad. congruence.
  - discriminate.
  - intros Hnil. rewrite Hnil in Es. discriminate Es.
  - intros _. right. now apply invalid_utf8_fails.
  - reflexivity.
Qed.

(** X11: whatever string the text or the CSV handler returns, every
    character of it is a Unicode scalar value (no surrogate, nothing above
    U+10FFFF) and it has no more characters than there were bytes to read;
    when the file is open and those bytes are valid UTF-8 there are at
    most four bytes to a character. *)
Theorem decoded_text_shape (h : FileHandler) (f : UploadedFile)
    (out : list printed) (s : pystr) :
  h = TxtHandler \/ h = CSVFileHandler ->
  fst (run (read_file pdf docx h) f out) = Return (PyStr s) ->
  Forall (fun c => is_scalar c = true) s
  /\ (List.length s <= List.length (remaining (stream f)))%nat
  /\ (closed (stream f) = false -> valid_utf8 (remaining (stream f)) ->
      (List.length (remaining (stream f)) <= 4 * List.length s)%nat).
Proof.
  intros Hh Hrun.
  assert (s = []
          /\ (closed (stream f) = true
              \/ ~ valid_utf8 (remaining (stream f)))
          \/ utf8_decode (remaining (stream f)) = Some s) as Hcases.
  { destruct (closed (stream f)) eqn:Ec; destruct Hh as [-> | ->].
    - rewrite (TxtHandler_closed pdf docx f out Ec) in Hrun.
      injection Hrun as <-. auto.
    - rewrite (CSVFileHandler_closed pdf docx f out Ec) in Hrun.
      discriminate Hrun.
    - rewrite (TxtHandler_open pdf docx f out Ec) in Hrun.
      destruct (utf8_decode (remaining (stream f))) as [s'|] eqn:Es.
      + injection Hrun as <-. now right.
      + injection Hrun as <-. left. split; [reflexivity|].
        right. now apply invalid_utf8_fails.
    - rewrite (CSVFileHandler_open pdf docx f out Ec) in Hrun.
      destruct (utf8_decode (remaining (stream f))) as [s'|] eqn:Es.
      + injection Hrun as <-. now right.
      + discriminate Hrun. }
  destruct Hcases as [(-> & Hwhy) | Hdec].
  - split; [constructor|split; [cbn; lia|]].
    intros Hopen Hv. destruct Hwhy as [Hc | Hbad]; [congruence|].
    now destruct Hbad.
  - apply utf8_encode_decode in Hdec.
    destruct (utf8_encode_shape s _ Hdec) as (Hs & Hlen).
    split; [exact Hs|split; [lia|intros _ _; lia]].
Qed.

(** A [try] block that returns, returns a string. *)
Lemma try_block_returns_str (h : FileHandler) (env env' : Env) (v : pyval) :
  try_block pdf docx h env = (Return v, env') -> exists s : pystr, v = PyStr s.
Proof.
  destruct h; cbn [try_block].
  - unfold PDFHandler_try, bind, ret.
    destruct (on_stream (PdfReader pdf) env) as [[reader|e] env1];
      [|discriminate].
    destruct (for_page_in pdf (pages pdf reader) [] env1)
      as [[text|e] env2]; [|discriminate].
    intros [= <- _]. eauto.
  - unfold DocxHandler_try, bind, ret, lift.
    destruct (on_stream (Document docx) env) as [[doc|e] env1];
      [|discriminate].
    destruct (paragraphs docx doc) as [ps|e]; [|discriminate].
    destruct (paragraph_texts docx ps env1) as [[ts|e] env2];
      [|discriminate].
    intros [= <- _]. eauto.
  - unfold TxtHandler_try, bind, ret.
    destruct (file_read env) as [[data|e] env1]; [|discriminate].
    destruct (decode_utf8 data env1) as [[text|e] env2]; [|discriminate].
    intros [= <- _]. eauto.
  - unfold CSVFileHandler_try, bind, ret.
    destruct (file_read env) as [[data|e] env1]; [|discriminate].
    destruct (decode_utf8 data env1) as [[text|e] env2]; [|discriminate].
    intros [= <- _]. eauto.
Qed.

(** X12: [None] comes back in exactly one situation: the CSV handler, on
    an open file, whose bytes are not valid UTF-8. The PDF, Word and text
    handlers never return [None]. *)
Theorem read_file_None_iff (h : FileHandler) (f : UploadedFile)
    (out : list printed) :
  fst (run (read_file pdf docx h) f out) = Return PyNone
  <-> h = CSVFileHandler
      /\ closed (stream f) = false
      /\ ~ valid_utf8 (remaining (stream f)).
Proof.
  split.
  - intros Hnone. destruct (error_prefix h) as [p|] eqn:Ep.
    + exfalso. rewrite (read_file_by_try_block h p f out Ep) in Hnone.
      destruct (try_block pdf docx h (mkEnv f out)) as [[v|e] env'] eqn:Et;
        cbn [fst] in Hnone; [|discriminate Hnone].
      destruct (try_block_returns_str h _ _ _ Et) as [s ->].
      discriminate Hnone.
    + destruct h; try discriminate Ep. split; [reflexivity|].
      destruct (closed (stream f)) eqn:Ec.
      * rewrite (CSVFileHandler_closed pdf docx f out Ec) in Hnone.
        discriminate Hnone.
      * split; [reflexivity|].
        rewrite (CSVFileHandler_open pdf docx f out Ec) in Hnone.
        apply invalid_utf8_fails.
        destruct (utf8_decode (remaining (stream f)));
          [discriminate Hnone|reflexivity].
  - intros (-> & Ec & Hbad). apply invalid_utf8_fails in Hbad.
    now rewrite (CSVFileHandler_open pdf docx f out Ec), Hbad.
Qed.

(** The text or CSV handler on an open file with valid bytes. *)
Lemma decoding_handler_valid (h : FileHandler) (f : UploadedFile)
    (out : list printed) :
  h = TxtHandler \/ h = CSVFileHandler ->
  closed (stream f) = false ->
  valid_utf8 (remaining (stream f)) ->
  exists s : pystr,
    utf8_encode s = Some (remaining (stream f))
    /\ run (read_file pdf docx h) f out
       = (Return (PyStr s), mkEnv (with_stream f (at_end (stream f))) out).
Proof.
  intros Hh Hopen [s Hs]. exists s. split; [exact Hs|].
  destruct Hh as [-> | ->].
  - now rewrite (TxtHandler_open pdf docx f out Hopen),
                (utf8_decode_encode s _ Hs).
  - now rewrite (CSVFileHandler_open pdf docx f out Hopen),
                (utf8_decode_encode s _ Hs).
Qed.

(** X13: on valid UTF-8 the text and the CSV handler lose nothing: two
    open files from which a handler returns the same text held the same
    bytes. *)
Theorem decoded_text_determines_bytes (h : FileHandler)
    (f1 f2 : UploadedFile) (out1 out2 : list printed) :
  h = TxtHandler \/ h = CSVFileHandler ->
  closed (stream f1) = false -> closed (stream f2) = false ->
  valid_utf8 (remaining (stream f1)) ->
  valid_utf8 (remaining (stream f2)) ->
  fst (run (read_file pdf docx h) f1 out1)
  = fst (run (read_file pdf docx h) f2 out2) ->
  remaining (stream f1) = remaining (stream f2).
Proof.
  intros Hh Ho1 Ho2 Hv1 Hv2.
  destruct (decoding_handler_valid h f1 out1 Hh Ho1 Hv1) as (s1 & E1 & ->).
  destruct (decoding_handler_valid h f2 out2 Hh Ho2 Hv2) as (s2 & E2 & ->).
  cbn [fst]. intros [= ->]. congruence.
Qed.

(** X14: decoding goes along with concatenation. When a file holds the
    bytes of one valid file followed by the bytes of another, the text or
    CSV handler returns the text of the first followed by the text of the
    second. *)
Theorem decoded_text_of_concatenation (h : FileHandler)
    (f1 f2 f3 : UploadedFile) (out : list printed) :
  h = TxtHandler \/ h = CSVFileHandler ->
  closed (stream f1) = false -> closed (stream f2) = false ->
  closed (stream f3) = false ->
  valid_utf8 (remaining (stream f1)) ->
  valid_utf8 (remaining (stream f2)) ->
  remaining (stream f3) = remaining (stream f1) ++ remaining (stream f2) ->
  exists s1 s2 : pystr,
    fst (run (read_file pdf docx h) f1 out) = Return (PyStr s1)
    /\ fst (run (read_file pdf docx h) f2 out) = Return (PyStr s2)
    /\ fst (run (read_file pdf docx h) f3 out) = Return (PyStr (s1 ++ s2)).
Proof.
  intros Hh Ho1 Ho2 Ho3 Hv1 Hv2 Hcat.
  destruct (decoding_handler_valid h f1 out Hh Ho1 Hv1) as (s1 & E1 & R1).
  destruct (decoding_handler_valid h f2 out Hh Ho2 Hv2) as (s2 & E2 & R2).
  exists s1, s2. rewrite R1, R2. split; [reflexivity|split; [reflexivity|]].
  assert (utf8_decode (remaining (stream f3)) = Some (s1 ++ s2)) as Hd.
  { rewrite Hcat. apply utf8_decode_encode.
    now apply utf8_encode_app. }
  destruct Hh as [-> | ->].
  - now rewrite (TxtHandler_open pdf docx f3 out Ho3), Hd.
  - now rewrite (CSVFileHandler_open pdf docx f3 out Ho3), Hd.
Qed.

End HandlerEffects.

(* ================================================================= *)
(** ** Those theorems at work on the sample uploads *)

Lemma sample_text_valid : valid_utf8 (remaining (stream sample_text)).
Proof. now exists [8364; 65]. Qed.

Lemma read_file_raises_iff_witness :
  run (read_file toy_pdf toy_docx CSVFileHandler) sample_closed []
  = (Raise (ValueError "I/O operation on closed file."),
     mkEnv sample_closed []).
Proof.
  apply (proj2 (read_file_raises_iff toy_pdf toy_docx CSVFileHandler
                  sample_closed []
                  (ValueError "I/O operation on closed file.")
                  (mkEnv sample_closed []))).
  repeat split.
Defined.

Lemma read_file_preserves_file_witness :
  buffer (stream (file (snd (run (read_file toy_pdf toy_docx TxtHandler)
                               sample_text []))))
  = buffer (stream sample_text)
  /\ closed (stream (file (snd (run (read_file toy_pdf toy_docx TxtHandler)
                                  sample_text []))))
     = closed (stream sample_text)
  /\ (pos (stream sample_text)
      <= pos (stream (file (snd (run (read_file toy_pdf toy_docx TxtHandler)
                                   sample_text [])))))%nat.
Proof.
  apply (proj2 (proj2 (read_file_preserves_file toy_pdf toy_docx
                         TxtHandler sample_text []))).
  left. reflexivity.
Defined.

Lemma second_read_is_empty_witness :
  read_file toy_pdf toy_docx CSVFileHandler
    (snd (run (read_file toy_pdf toy_docx TxtHandler) sample_text []))
  = (Return (PyStr []),
     snd (run (read_file toy_pdf toy_docx TxtHandler) sample_text [])).
Proof.
  apply (second_read_is_empty toy_pdf toy_docx TxtHandler CSVFileHandler
           sample_text []).
  - left. reflexivity.
  - right. reflexivity.
  - reflexivity.
Defined.

Lemma PDFHandler_discards_partial_text_witness :
  run (read_file toy_pdf toy_docx PDFHandler) sample_pdf_bad_page []
  = (Return (PyStr []),
     mkEnv sample_pdf_bad_page
       [("Error reading file: "%string,
         LibraryError "PdfReadError" "Invalid content stream")]).
Proof.
  apply (PDFHandler_discards_partial_text toy_pdf toy_docx
           sample_pdf_bad_page []
           [ascii_bytes "Hello"; [xff]; ascii_bytes "world"]
           (stream sample_pdf_bad_page)
           [ascii_bytes "Hello"] [Some (lit "Hello")]
           (LibraryError "PdfReadError" "Invalid content stream")).
  - reflexivity.
  - reflexivity.
  - right. exists [xff], (iter_of_list [ascii_bytes "world"]).
    split; reflexivity.
Defined.

Lemma DocxHandler_discards_partial_text_witness :
  run (read_file toy_pdf toy_docx DocxHandler) sample_docx_bad_paragraph []
  = (Return (PyStr []),
     mkEnv sample_docx_bad_paragraph
       [("Error reading Word file: "%string,
         LibraryError "XMLSyntaxError" "Invalid character")]).
Proof.
  apply (DocxHandler_discards_partial_text toy_pdf toy_docx
           sample_docx_bad_paragraph []
           [ascii_bytes "Hello"; [xff]; ascii_bytes "world"]
           (stream sample_docx_bad_paragraph)
           (LibraryError "XMLSyntaxError" "Invalid character")).
  - reflexivity.
  - right.
    exists [ascii_bytes "Hello"], [ascii_bytes "world"], [xff],
           [lit "Hello"].
    repeat split.
Defined.

Lemma PDFHandler_empty_iff_no_text_witness :
  exists text : pystr,
    run (read_file toy_pdf toy_docx PDFHandler) sample_blank_pdf []
    = (Return (PyStr text), mkEnv sample_blank_pdf [])
    /\ List.length text = 0%nat
    /\ (text = [] <-> Forall (fun t => truthy t = false) [None; None]).
Proof.
  apply (PDFHandler_empty_iff_no_text toy_pdf toy_docx sample_blank_pdf []
           [[]; []] (stream sample_blank_pdf) [[]; []] [None; None]);
    reflexivity.
Defined.

Lemma DocxHandler_empty_iff_no_text_witness :
  exists text : pystr,
    run (read_file toy_pdf toy_docx DocxHandler) sample_blank_docx []
    = (Return (PyStr text), mkEnv sample_blank_docx [])
    /\ (forall t : pystr, [[]] = [t] -> text = t)
    /\ (text = [] <-> [[]] = @nil pystr \/ [[]] = [@nil codepoint]).
Proof.
  apply (DocxHandler_empty_iff_no_text toy_pdf toy_docx sample_blank_docx []
           [[]] (stream sample_blank_docx) [[]] [[]]);
    reflexivity.
Defined.

Lemma TxtHandler_CSVFileHandler_agree_witness :
  file (snd (run (read_file toy_pdf toy_docx TxtHandler) sample_bad_text []))
  = file (snd (run (read_file toy_pdf toy_docx CSVFileHandler)
                 sample_bad_text []))
  /\ fst (run (read_file toy_pdf toy_docx TxtHandler) sample_bad_text [])
     = Return (PyStr []).
Proof.
  destruct (TxtHandler_CSVFileHandler_agree toy_pdf toy_docx
              sample_bad_text [] eq_refl) as (Hfile & _ & _ & Hnone).
  split; [exact Hfile|]. apply Hnone. reflexivity.
Defined.

Lemma empty_string_meaning_witness :
  fst (run (read_file toy_pdf toy_docx CSVFileHandler) sample_empty_text [])
  = Return (PyStr [])
  /\ fst (run (read_file toy_pdf toy_docx TxtHandler) sample_bad_text [])
     = Return (PyStr []).
Proof.
  split.
  - apply (proj2 (proj1 (empty_string_meaning toy_pdf toy_docx
                           sample_empty_text [] eq_refl))).
    reflexivity.
  - apply (proj2 (proj2 (empty_string_meaning toy_pdf toy_docx
                           sample_bad_text [] eq_refl))).
    right. exact sample_bad_text_invalid.
Defined.

Lemma decoded_text_shape_witness :
  Forall (fun c => is_scalar c = true) sample_text_decoded
  /\ (List.length sample_text_decoded
      <= List.length (remaining (stream sample_text)))%nat
  /\ (closed (stream sample_text) = false ->
      valid_utf8 (remaining (stream sample_text)) ->
      (List.length (remaining (stream sample_text))
       <= 4 * List.length sample_text_decoded)%nat).
Proof.
  apply (decoded_text_shape toy_pdf toy_docx CSVFileHandler sample_text []
           sample_text_decoded).
  - right. reflexivity.
  - reflexivity.
Defined.

Lemma read_file_None_iff_witness :
  fst (run (read_file toy_pdf toy_docx CSVFileHandler) sample_bad_text [])
  = Return PyNone.
Proof.
  apply (proj2 (read_file_None_iff toy_pdf toy_docx CSVFileHandler
                  sample_bad_text [])).
  split; [reflexivity|split; [reflexivity|exact sample_bad_text_invalid]].
Defined.

Lemma decoded_text_determines_bytes_witness :
  remaining (stream sample_text)
  = remaining (stream (upload (lit "copy.txt") (lit "text/csv")
                         [xe2; x82; xac; x41])).
Proof.
  apply (decoded_text_determines_bytes toy_pdf toy_docx TxtHandler
           sample_text
           (upload (lit "copy.txt") (lit "text/csv") [xe2; x82; xac; x41])
           [] []).
  - left. reflexivity.
  - reflexivity.
  - reflexivity.
  - exact sample_text_valid.
  - exact sample_text_valid.
  - reflexivity.
Defined.

Lemma decoded_text_of_concatenation_witness :
  exists s1 s2 : pystr,
    fst (run (read_file toy_pdf toy_docx TxtHandler) sample_text [])
    = Return (PyStr s1)
    /\ fst (run (read_file toy_pdf toy_docx TxtHandler) sample_text [])
       = Return (PyStr s2)
    /\ fst (run (read_file toy_pdf toy_docx TxtHandler)
              sample_text_twice [])
       = Return (PyStr (s1 ++ s2)).
Proof.
  apply (decoded_text_of_concatenation toy_pdf toy_docx TxtHandler
           sample_text sample_text sample_text_twice []).
  - left. reflexivity.
  - reflexivity.
  - reflexivity.
  - reflexivity.
  - exact sample_text_valid.
  - exact sample_text_valid.
  - reflexivity.
Defined.

(* ================================================================= *)
(** ** The question-answering tab *)

Section Tab1Facts.

Variable response : Type.
Variable deps : Collaborators response.
Variable page : PageRun.

Lemma nonempty_true (A : Type) (l : list A) : nonempty l = true <-> l <> [].
Proof. destruct l; cbn; split; congruence. Qed.

Lemma asked_true :
  asked page = true
  <-> question page <> [] /\ uploaded_files page <> []
      /\ run_clicked page = true.
Proof.
  unfold asked. rewrite !andb_true_iff, !nonempty_true. tauto.
Qed.

(** The run of the tab, case by case. *)
Lemma tab1_run :
  tab1_qa_chain_files deps page []
  = match advanced_parameters_section deps with
    | Raise e =>
        (Raise e,
         [st_file_uploader; st_expander; call_advanced_parameters_section])
    | Return _ =>
        if asked page then
          match api_key_valid page with
          | Raise e => (Raise e, widgets ++ [read_api_key_valid])
          | Return false => (Return tt, widgets ++ [read_api_key_valid])
          | Return true =>
              let fs := uploaded_files page in
              let q := question page in
              match flow_coordinator_run deps fs q with
              | Raise e =>
                  (Raise e, widgets ++ [read_api_key_valid; call_run fs q])
              | Return r =>
                  if pystr_eqb (chat_mode page) (lit "Standalone") then
                    (Return tt,
                     widgets ++ [read_api_key_valid; call_run fs q;
                                 st_write r])
                  else
                    (integrate_chain_into_chat deps q r,
                     widgets ++ [read_api_key_valid; call_run fs q;
                                 st_write r; call_integrate q r])
              end
          end
        else (Return tt, widgets)
    end.
Proof.
  unfold tab1_qa_chain_files, ui_bind, perform, run_condition, ui_ret, asked.
  cbn [app].
  destruct (advanced_parameters_section deps) as [[]|e]; [|reflexivity].
  destruct (question page) as [|c q]; [reflexivity|].
  destruct (uploaded_files page) as [|f fs]; [reflexivity|].
  destruct (run_clicked page); [|reflexivity].
  cbn [nonempty andb app].
  destruct (api_key_valid page) as [[|]|e]; try reflexivity.
  cbv zeta.
  destruct (flow_coordinator_run deps (f :: fs) (c :: q)) as [r|e];
    [|reflexivity].
  cbn [app].
  destruct (pystr_eqb (chat_mode page) (lit "Standalone")); reflexivity.
Qed.

Ltac tab1_cases :=
  rewrite tab1_run;
  destruct (advanced_parameters_section deps) as [[]|?];
  [destruct (asked page) eqn:Hasked;
   [apply asked_true in Hasked; destruct Hasked as (Hq & Hfs & Hclick);
    destruct (api_key_valid page) as [[|]|?];
    [cbv zeta;
     destruct (flow_coordinator_run deps (uploaded_files page)
                 (question page)) as [?r|?] eqn:Hrun;
     [destruct (pystr_eqb (chat_mode page) (lit "Standalone")) eqn:Hmode
     |]
    | | ]
   |]
  |];
  cbn [fst snd].

Ltac not_in_trace :=
  unfold widgets; cbn [In app];
  intros Hin;
  repeat match goal with
  | H : _ \/ _ |- _ => destruct H
  | H : False |- _ => destruct H
  | H : @eq (call _) _ _ |- _ => try discriminate H; injection H as ? ?
  end.

(** X15: [flow_coordinator.run] is called only when the question is not
    empty, at least one file is uploaded, the Run button was clicked and
    [api_key_valid] is true, and then with exactly the uploaded files and
    the question typed. When all that holds and the helper that draws the
    advanced parameters returns, it is called. *)
Theorem tab1_runs_chain_only_when_ready (fs : list UploadedFile)
    (q : pystr) :
  (In (call_run fs q) (snd (tab1_qa_chain_files deps page [])) ->
   fs = uploaded_files page /\ q = question page
   /\ question page <> [] /\ uploaded_files page <> []
   /\ run_clicked page = true /\ api_key_valid page = Return true)
  /\ (advanced_parameters_section deps = Return tt ->
      question page <> [] -> uploaded_files page <> [] ->
      run_clicked page = true -> api_key_valid page = Return true ->
      In (call_run (uploaded_files page) (question page))
         (snd (tab1_qa_chain_files deps page []))).
Proof.
  split.
  - tab1_cases; not_in_trace; subst; auto 10.
  - intros Hadv Hq Hfs Hclick Hkey.
    assert (asked page = true) as Hasked by (apply asked_true; auto).
    rewrite tab1_run, Hadv, Hasked, Hkey. cbv zeta.
    destruct (flow_coordinator_run deps (uploaded_files page)
                (question page)) as [r|e];
      [destruct (pystr_eqb (chat_mode page) (lit "Standalone"))|];
      cbn [snd]; apply in_or_app; right; cbn [In]; auto.
Qed.

(** X16: [integrate_chain_into_chat] is called only with the question
    typed and the answer [flow_coordinator.run] returned for it, only
    when the selected mode is not ["Standalone"], and only as the last
    call of the run, right after [st.write] has shown that answer. *)
Theorem tab1_integrates_after_answer (q : pystr) (r : response) :
  In (call_integrate q r) (snd (tab1_qa_chain_files deps page [])) ->
  q = question page
  /\ flow_coordinator_run deps (uploaded_files page) (question page)
     = Return r
  /\ chat_mode page <> lit "Standalone"
  /\ snd (tab1_qa_chain_files deps page [])
     = widgets ++ [read_api_key_valid;
                   call_run (uploaded_files page) (question page);
                   st_write r; call_integrate q r].
Proof.
  tab1_cases; not_in_trace; subst.
  repeat split.
  intros Hstandalone. rewrite Hstandalone, pystr_eqb_refl in Hmode.
  discriminate Hmode.
Qed.

(** X17: the session state is the last of the four tests: it is read
    only when the question is not empty, a file is uploaded and Run was
    clicked. Short of that the tab draws its widgets and returns, whatever
    [api_key_valid] holds and even if it was never set. *)
Theorem tab1_reads_session_state_last :
  (In read_api_key_valid (snd (tab1_qa_chain_files deps page [])) ->
   question page <> [] /\ uploaded_files page <> []
   /\ run_clicked page = true)
  /\ (advanced_parameters_section deps = Return tt ->
      question page = [] \/ uploaded_files page = []
      \/ run_clicked page = false ->
      tab1_qa_chain_files deps page [] = (Return tt, widgets)).
Proof.
  split.
  - tab1_cases; try solve [intros _; auto]; not_in_trace.
  - intros Hadv Hnot.
    assert (asked page = false) as Hasked.
    { destruct (asked page) eqn:E; [|reflexivity].
      apply asked_true in E. destruct E as (Hq & Hfs & Hclick).
      destruct Hnot as [H | [H | H]]; congruence. }
    now rewrite tab1_run, Hadv, Hasked.
Qed.

End Tab1Facts.

Lemma tab1_runs_chain_only_when_ready_witness :
  In (call_run [sample_text] (lit "How long is the lease?"))
     (snd (tab1_qa_chain_files toy_deps sample_page [])).
Proof.
  apply (proj2 (tab1_runs_chain_only_when_ready pystr toy_deps sample_page
                  [sample_text] (lit "How long is the lease?")));
    try reflexivity; discriminate.
Defined.

Lemma tab1_integrates_after_answer_witness :
  snd (tab1_qa_chain_files toy_deps sample_page [])
  = widgets ++ [read_api_key_valid;
                call_run [sample_text] (lit "How long is the lease?");
                st_write (lit "Twelve months.");
                call_integrate (lit "How long is the lease?")
                  (lit "Twelve months.")].
Proof.
  apply (tab1_integrates_after_answer pystr toy_deps sample_page
           (lit "How long is the lease?") (lit "Twelve months.")).
  cbn. auto 20.
Defined.

Lemma tab1_reads_session_state_last_witness :
  tab1_qa_chain_files toy_deps sample_idle_page [] = (Return tt, widgets).
Proof.
  apply (proj2 (tab1_reads_session_state_last pystr toy_deps
                  sample_idle_page)).
  - reflexivity.
  - left. reflexivity.
Defined.
